(** * R2 upload endpoints of media_downloader

    A shallow embedding of [app/api/endpoints/r2_upload.py] and of the
    way [app/api/router.py] mounts it, with the properties its
    specification states about it.

    The endpoints are orchestration code: every handler threads a log of
    calls to its collaborators (the crawler, the HTTP client, the object
    store) and either returns a response model or raises.  The
    collaborators are not part of the repository; they are taken as a
    record of oracles, [externals]. *)

From Stdlib Require Import ZArith QArith Qround Qabs Lqa String Ascii List Lia.
From Stdlib.Strings Require Import Byte.
From stdpp Require Import gmap strings list pretty.
Import ListNotations.

#[local] Set Warnings "-register-all".
#[local] Open Scope string_scope.
#[local] Open Scope Z_scope.

(** ** Python values *)

Module Py.

(** The JSON-like values the crawler hands back.  Floats do not occur in
    the fields the endpoints inspect and are left out. *)
Inductive pyval : Type :=
| PNone
| PBool (b : bool)
| PInt (z : Z)
| PStr (s : string)
| PList (l : list pyval)
| PDict (d : gmap string pyval).

(** [bool(v)] *)
Definition truthy (v : pyval) : bool :=
  match v with
  | PNone => false
  | PBool b => b
  | PInt z => negb (z =? 0)
  | PStr s => negb (String.eqb s EmptyString)
  | PList l => match l with [] => false | _ :: _ => true end
  | PDict d => negb (Nat.eqb (size d) 0)
  end.

(** [type(v).__name__] *)
Definition type_name (v : pyval) : string :=
  match v with
  | PNone => "NoneType"
  | PBool _ => "bool"
  | PInt _ => "int"
  | PStr _ => "str"
  | PList _ => "list"
  | PDict _ => "dict"
  end.

(** [v == s] for a string literal [s] *)
Definition eq_str (v : pyval) (s : string) : bool :=
  match v with
  | PStr t => String.eqb t s
  | _ => false
  end.

(** [isinstance(v, dict)] *)
Definition is_dict (v : pyval) : bool :=
  match v with
  | PDict _ => true
  | _ => false
  end.

(** [a or b], both operands already evaluated *)
Definition or_ (a b : pyval) : pyval := if truthy a then a else b.

(** [str(v)], as an f-string renders it.  The rendering of lists and
    dicts is Python's [repr], which is taken as given. *)
Definition str (repr : pyval -> string) (v : pyval) : string :=
  match v with
  | PNone => "None"
  | PBool true => "True"
  | PBool false => "False"
  | PInt z => pretty z
  | PStr s => s
  | PList _ | PDict _ => repr v
  end.

(** Exceptions: the handlers only tell [ValueError] (and its
    subclasses) from the other [Exception]s, and read [str(e)]. *)
Record exc : Type := Exc { is_ValueError : bool; exc_str : string }.

Definition ValueError (msg : string) : exc := Exc true msg.

Definition AttributeError (v : pyval) (attr : string) : exc :=
  Exc false ("'" +:+ type_name v +:+ "' object has no attribute '" +:+ attr +:+ "'").

(** [d.get(k, default)] on a dict *)
Definition dict_get (d : gmap string pyval) (k : string) (default : pyval) : pyval :=
  match d !! k with
  | Some v => v
  | None => default
  end.

(** [v.get(k, default)] on any value: only dicts have [get] *)
Definition get (v : pyval) (k : string) (default : pyval) : exc + pyval :=
  match v with
  | PDict d => inr (dict_get d k default)
  | _ => inl (AttributeError v "get")
  end.

End Py.

Import Py.

(** ** Dates *)

(** [datetime.datetime]; [tzinfo] is the UTC offset in minutes of an
    aware value, [None] for a naive one. *)
Record datetime : Type := {
  year : Z;
  month : Z;
  day : Z;
  hour : Z;
  minute : Z;
  second : Z;
  microsecond : Z;
  tzinfo : option Z
}.

Fixpoint zeros (n : nat) : string :=
  match n with
  | O => EmptyString
  | S k => "0" +:+ zeros k
  end.

(** [s.zfill(width)] for an unsigned numeral *)
Definition zfill (width : nat) (s : string) : string :=
  zeros (width - String.length s) +:+ s.

(** ["%0<width>d" % n] *)
Definition fmt_d (width : nat) (n : Z) : string := zfill width (pretty n).

(** [dt.strftime("%Y/%m/%d")] *)
Definition strftime_Ymd (dt : datetime) : string :=
  fmt_d 4 (year dt) +:+ "/" +:+ fmt_d 2 (month dt) +:+ "/" +:+ fmt_d 2 (day dt).

Definition utcoffset_str (off : Z) : string :=
  (if off <? 0 then "-" else "+")
    +:+ fmt_d 2 (Z.abs off / 60) +:+ ":" +:+ fmt_d 2 (Z.abs off mod 60).

(** [dt.isoformat()] *)
Definition isoformat (dt : datetime) : string :=
  fmt_d 4 (year dt) +:+ "-" +:+ fmt_d 2 (month dt) +:+ "-" +:+ fmt_d 2 (day dt)
    +:+ "T" +:+ fmt_d 2 (hour dt) +:+ ":" +:+ fmt_d 2 (minute dt)
    +:+ ":" +:+ fmt_d 2 (second dt)
    +:+ (if microsecond dt =? 0 then EmptyString else "." +:+ fmt_d 6 (microsecond dt))
    +:+ match tzinfo dt with
        | None => EmptyString
        | Some off => utcoffset_str off
        end.

(** ** Sizes in megabytes *)

(** Nearest integer, ties to the even one: the rounding of Python's
    [round]. *)
Definition round_half_even (x : Q) : Z :=
  let f := Qfloor x in
  match Qcompare (x - inject_Z f) (1 # 2) with
  | Lt => f
  | Gt => f + 1
  | Eq => if Z.even f then f else f + 1
  end.

(** [round(x, 2)].  The float Python returns is the double nearest to
    this decimal; it is represented by the decimal. *)
Definition round2 (x : Q) : Q := Qmake (round_half_even (x * inject_Z 100)) 100.

(** [round(n / 1024 / 1024, 2)]: the two divisions by a power of two are
    exact on floats for every [n] below [2^53]. *)
Definition size_mb (n : Z) : Q := round2 (inject_Z n / inject_Z 1024 / inject_Z 1024).

(** ** Filename sanitisation *)

(** A Python [str] is a sequence of code points, and [sanitize_filename]
    counts and cuts by code point; its strings are lists of code points
    here.  Everywhere else strings are only compared and concatenated,
    which their UTF-8 bytes do as well, and they are [string]s. *)
Definition codepoint : Type := N.

Definition cp (a : ascii) : codepoint := N_of_ascii a.

Definition text (s : string) : list codepoint := map cp (list_ascii_of_string s).

Definition underscore : codepoint := cp "_".

Definition unsafe_chars : list codepoint :=
  [cp "/"; cp "\"; cp ":"; cp "*"; cp "?"; cp "034"; cp "<"; cp ">"; cp "|";
   cp "010"; cp "013"; cp "#"; cp "@"].

(** [s.replace(c, "_")] for a one-character [c] *)
Definition replace_char (c : codepoint) (s : list codepoint) : list codepoint :=
  map (fun x => if N.eqb x c then underscore else x) s.

(** ["__" in s] *)
Fixpoint has_double_underscore (s : list codepoint) : bool :=
  match s with
  | a :: (b :: _) as r =>
      (N.eqb a underscore && N.eqb b underscore) || has_double_underscore r
  | _ => false
  end.

(** [s.replace("__", "_")]: the occurrences are taken from the left and
    do not overlap. *)
Fixpoint replace_double_underscore (s : list codepoint) : list codepoint :=
  match s with
  | a :: r =>
      match r with
      | b :: t =>
          if N.eqb a underscore && N.eqb b underscore
          then underscore :: replace_double_underscore t
          else a :: replace_double_underscore r
      | [] => s
      end
  | [] => []
  end.

(** [while "__" in s: s = s.replace("__", "_")], at most [fuel] rounds *)
Fixpoint collapse_underscores (fuel : nat) (s : list codepoint) : list codepoint :=
  match fuel with
  | O => s
  | S k =>
      if has_double_underscore s
      then collapse_underscores k (replace_double_underscore s)
      else s
  end.

Definition in_strip_set (x : codepoint) : bool :=
  N.eqb x underscore || N.eqb x (cp " ").

Fixpoint lstrip (s : list codepoint) : list codepoint :=
  match s with
  | x :: r => if in_strip_set x then lstrip r else s
  | [] => []
  end.

(** [s.strip("_ ")] *)
Definition strip (s : list codepoint) : list codepoint :=
  rev (lstrip (rev (lstrip s))).

(** [s[:n]]: a negative [n] counts from the end *)
Definition slice_to (n : Z) (s : list codepoint) : list codepoint :=
  if n <? 0
  then take (Z.to_nat (Z.of_nat (length s) + n)) s
  else take (Z.to_nat n) s.

(** Every round of the loop shortens the string, so [length] of it is
    fuel enough ([collapse_underscores_done] below). *)
Definition sanitize_filename (desc : list codepoint) (max_length : Z) : list codepoint :=
  match desc with
  | [] => text "video"
  | _ :: _ =>
      let safe_desc := fold_left (fun s c => replace_char c s) unsafe_chars desc in
      let safe_desc := collapse_underscores (length safe_desc) safe_desc in
      let safe_desc := strip safe_desc in
      let safe_desc :=
        if Z.of_nat (length safe_desc) >? max_length
        then slice_to max_length safe_desc
        else safe_desc in
      match safe_desc with
      | [] => text "video"
      | _ :: _ => safe_desc
      end
  end.

Definition sanitize_filename_default (desc : list codepoint) : list codepoint :=
  sanitize_filename desc 50.

(** ** The collaborators *)

(** What [httpx] hands back for a GET. *)
Record http_response : Type := { status_code : Z; content : list byte }.

(** [response.is_success] *)
Definition is_success (r : http_response) : bool :=
  (200 <=? status_code r) && (status_code r <=? 299).

(** An entry of the [Contents] of a [list_objects_v2] answer. *)
Record s3_object : Type := {
  obj_Key : string;
  obj_Size : Z;
  obj_LastModified : datetime
}.

(** The answer of [list_objects_v2]; the store leaves [Contents] out
    when nothing matches. *)
Record list_objects_response : Type := { Contents : option (list s3_object) }.

(** The calls a handler makes to the outside, in the order made. *)
Inductive call : Type :=
| Crawl (url : string)
| HttpGet (url : pyval) (headers : gmap string string)
| PutObject (bucket : pyval) (key : string) (body : list byte) (content_type : string)
| ListObjectsV2 (bucket : pyval) (prefix : string) (max_keys : Z)
| GeneratePresignedUrl (bucket : pyval) (key : string) (expires_in : Z).

(** The collaborators and the process-wide configuration.  Each oracle
    answers a call with a value or with the exception it raises; for the
    store, that covers building the client too. *)
Record externals : Type := {
  (* HybridCrawler.hybrid_parsing_single_video(url=..., minimal=True) *)
  hybrid_parsing_single_video : string -> exc + pyval;
  (* httpx.AsyncClient(timeout=120.0, follow_redirects=True).get(url, headers=...) *)
  client_get : pyval -> gmap string string -> exc + http_response;
  (* str() of the HTTPStatusError that raise_for_status() raises *)
  status_error_str : pyval -> http_response -> string;
  (* s3_client.put_object(Bucket=, Key=, Body=, ContentType=) *)
  put_object : pyval -> string -> list byte -> string -> option exc;
  (* s3_client.list_objects_v2(Bucket=, Prefix=, MaxKeys=) *)
  list_objects_v2 : pyval -> string -> Z -> exc + list_objects_response;
  (* s3_client.generate_presigned_url("get_object", Params=, ExpiresIn=) *)
  s3_generate_presigned_url : pyval -> string -> Z -> exc + string;
  (* datetime.now() *)
  datetime_now : datetime;
  (* config.get("R2", {}) *)
  r2_config : gmap string pyval;
  (* repr() of lists and dicts *)
  repr : pyval -> string
}.

(** ** Computations that log their calls and may raise *)

Definition M (A : Type) : Type := list call -> (exc + A) * list call.

Definition ret {A : Type} (a : A) : M A := fun w => (inr a, w).

Definition raise {A : Type} (e : exc) : M A := fun w => (inl e, w).

Definition bind {A B : Type} (m : M A) (k : A -> M B) : M B :=
  fun w =>
    match m w with
    | (inr a, w') => k a w'
    | (inl e, w') => (inl e, w')
    end.

Definition lift {A : Type} (r : exc + A) : M A := fun w => (r, w).

(** Make a call: log it, then answer as the oracle does. *)
Definition perform {A : Type} (c : call) (answer : exc + A) : M A :=
  fun w => (answer, (w ++ [c])%list).

Notation "'do' x <- m ; k" := (bind m (fun x => k))
  (at level 10, x name, m at level 100, k at level 200).

(** ** Requests and responses *)

(** What the handlers read of a request: its path, its query string and
    its [Auth] header, if it carries one. *)
Record Request : Type := {
  url_path : string;
  query_params : list (string * string);
  Auth_header : option string
}.

Record ParseAndUploadRequest : Type := { url : string; quality : string }.

(** Modelled from the spec: [ResponseModel] of
    [app/api/models/APIResponseModel.py] is not among the sources; it is
    the record of the three fields the handlers construct it with. *)
Record ResponseModel (D : Type) : Type := {
  code : Z;
  router : string;
  data : D
}.
Arguments Build_ResponseModel {D} _ _ _.
Arguments code {D} _.
Arguments router {D} _.
Arguments data {D} _.

(** How a handler ends: it returns its model, or raises
    [HTTPException(status_code, detail)]. *)
Inductive outcome (D : Type) : Type :=
| Return (r : ResponseModel D)
| HTTPException (status : Z) (detail : string).
Arguments Return {D} _.
Arguments HTTPException {D} _ _.

(** How the framework answers a request to a route: with what the
    handler did, or, when a required parameter cannot be bound, with
    422 and without running the handler. *)
Inductive served (D : Type) : Type :=
| Handled (o : outcome D)
| Unprocessable.
Arguments Handled {D} _.
Arguments Unprocessable {D}.

Definition http_status {D : Type} (s : served D) : Z :=
  match s with
  | Handled (Return _) => 200
  | Handled (HTTPException status _) => status
  | Unprocessable => 422
  end.

Record video_info_t : Type := {
  vi_video_id : pyval;
  vi_desc : pyval;
  vi_platform : pyval;
  vi_type : pyval;
  vi_create_time : pyval;
  vi_author : pyval;
  vi_statistics : pyval;
  vi_cover : pyval
}.

Record r2_storage_t : Type := {
  bucket : pyval;
  path : string;
  file_size : Z;
  file_size_mb : Q
}.

(** The [data] of a [parse_and_upload] response. *)
Record upload_data : Type := {
  video_info : video_info_t;
  r2_storage : r2_storage_t;
  data_quality : string
}.

(** An entry of the [videos] of a [list_videos] response. *)
Record video_entry : Type := {
  entry_key : string;
  entry_size : Z;
  entry_size_mb : Q;
  entry_last_modified : string
}.

Record list_data : Type := { count : Z; videos : list video_entry }.

Record download_url_data : Type := {
  url_path_of : string;
  download_url : string;
  url_expires_in : Z
}.

(** ** The module [r2_upload] *)

Definition AUTH_TOKEN : string := "shipit2026".

(** [verify_auth]: a dependency with an optional header, raising
    [HTTPException(401, ...)] or returning the header.  No route
    declares it. *)
Definition verify_auth (auth : option string) : Z * string + string :=
  match auth with
  | Some a =>
      if String.eqb a AUTH_TOKEN then inr a
      else inl (401, "未认证：无效的 Auth Token")
  | None => inl (401, "未认证：无效的 Auth Token")
  end.

Section Handlers.

Variable E : externals.

Definition default_headers : gmap string string :=
  <["User-Agent" := "Mozilla/5.0 (Windows NT 10.0; Win64; x64) AppleWebKit/537.36 (KHTML, like Gecko) Chrome/130.0.0.0 Safari/537.36"]>
  (<["Referer" := "https://www.douyin.com/"]> ∅).

Definition download_video (url : pyval) (headers : option (gmap string string))
  : M (list byte) :=
  let default_headers :=
    match headers with
    | Some h => h ∪ default_headers
    | None => default_headers
    end in
  do response <- perform (HttpGet url default_headers) (client_get E url default_headers);
  if is_success response
  then ret (content response)
  else raise (Exc false (status_error_str E url response)).

Definition bucket_name : pyval :=
  dict_get (r2_config E) "bucket_name" (PStr "douyin-videos").

Definition upload_to_r2 (file_content : list byte) (object_key : string)
    (content_type : string) : M string :=
  do _ <- perform (PutObject bucket_name object_key file_content content_type)
            (match put_object E bucket_name object_key file_content content_type with
             | Some e => inl e
             | None => inr tt
             end);
  ret object_key.

Definition generate_presigned_url (object_key : string) (expires_in : Z) : M string :=
  perform (GeneratePresignedUrl bucket_name object_key expires_in)
          (s3_generate_presigned_url E bucket_name object_key expires_in).

(** Lines 238-249: the URL for the requested quality. *)
Definition select_download_url (quality : string) (video_urls : pyval) : M pyval :=
  if String.eqb quality "high" then
    do a <- lift (get video_urls "nwm_video_url_HQ" PNone);
    if truthy a then ret a else lift (get video_urls "nwm_video_url" PNone)
  else if String.eqb quality "low" then
    do a <- lift (get video_urls "nwm_video_url" PNone);
    if truthy a then ret a else lift (get video_urls "nwm_video_url_HQ" PNone)
  else
    do a <- lift (get video_urls "wm_video_url_HQ" PNone);
    if truthy a then ret a else lift (get video_urls "wm_video_url" PNone).

(** Lines 262-269: the object key. *)
Definition object_key_of (now : datetime) (video_id : pyval) : string :=
  let date_path := strftime_Ymd now in
  let filename := str (repr E) video_id +:+ ".mp4" in
  "douyin/" +:+ date_path +:+ "/" +:+ filename.

(** The [try] block of [parse_and_upload_to_r2]. *)
Definition parse_and_upload_try (request : Request) (body : ParseAndUploadRequest)
  : M (ResponseModel upload_data) :=
  do video_data <- perform (Crawl (url body)) (hybrid_parsing_single_video E (url body));
  if negb (truthy video_data) then raise (ValueError "无法解析视频信息") else
  do type <- lift (get video_data "type" PNone);
  if negb (eq_str type "video") then
    raise (ValueError ("当前仅支持视频类型，检测到类型: " +:+ str (repr E) type))
  else
  do video_urls <- lift (get video_data "video_data" (PDict ∅));
  do download_url <- select_download_url (quality body) video_urls;
  if negb (truthy download_url) then raise (ValueError "无法获取视频下载链接") else
  do video_content <- download_video download_url None;
  match video_content with
  | [] => raise (ValueError "视频下载失败")
  | _ :: _ =>
  let now := datetime_now E in
  do video_id <- lift (get video_data "video_id" (PStr "unknown"));
  do desc <- lift (get video_data "desc" (PStr EmptyString));
  let object_key := object_key_of now video_id in
  do _ <- upload_to_r2 video_content object_key "video/mp4";
  do platform <- lift (get video_data "platform" PNone);
  do type' <- lift (get video_data "type" PNone);
  do create_time <- lift (get video_data "create_time" PNone);
  do author0 <- lift (get video_data "author" PNone);
  do author <-
    (if is_dict author0 then
       do a <- lift (get video_data "author" (PDict ∅));
       lift (get a "nickname" PNone)
     else ret PNone);
  do statistics <- lift (get video_data "statistics" PNone);
  do cover_data <- lift (get video_data "cover_data" (PDict ∅));
  do cover <- lift (get cover_data "cover" PNone);
  let result :=
    {| video_info :=
         {| vi_video_id := video_id;
            vi_desc := desc;
            vi_platform := platform;
            vi_type := type';
            vi_create_time := create_time;
            vi_author := author;
            vi_statistics := statistics;
            vi_cover := cover |};
       r2_storage :=
         {| bucket := dict_get (r2_config E) "bucket_name" PNone;
            path := object_key;
            file_size := Z.of_nat (length video_content);
            file_size_mb := size_mb (Z.of_nat (length video_content)) |};
       data_quality := quality body |} in
  ret (Build_ResponseModel 200 (url_path request) result)
  end.

(** [parse_and_upload_to_r2], as called with a bound [auth].  The
    [ErrorResponseModel] each [except] clause builds is dropped: the
    exception raised carries the status and the detail only. *)
Definition parse_and_upload_to_r2 (request : Request) (body : ParseAndUploadRequest)
    (auth : string) (w : list call) : outcome upload_data * list call :=
  if negb (String.eqb auth AUTH_TOKEN) then
    (HTTPException 401 "未认证：无效的 Auth Token", w)
  else
    match parse_and_upload_try request body w with
    | (inr r, w') => (Return r, w')
    | (inl e, w') =>
        if is_ValueError e
        then (HTTPException 400 (exc_str e), w')
        else (HTTPException 500 ("处理失败: " +:+ exc_str e), w')
    end.

(** POST /r2/parse_and_upload.  Line 177 declares the header with
    [Header(...)]: it is required, and a request without it is answered
    422 before the handler runs. *)
Definition post_parse_and_upload (request : Request) (body : ParseAndUploadRequest)
    (w : list call) : served upload_data * list call :=
  match Auth_header request with
  | None => (Unprocessable, w)
  | Some auth =>
      let (o, w') := parse_and_upload_to_r2 request body auth w in
      (Handled o, w')
  end.

Definition project (obj : s3_object) : video_entry :=
  {| entry_key := obj_Key obj;
     entry_size := obj_Size obj;
     entry_size_mb := size_mb (obj_Size obj);
     entry_last_modified := isoformat (obj_LastModified obj) |}.

Definition list_r2_videos_try (request : Request) (prefix : string) (max_keys : Z)
  : M (ResponseModel list_data) :=
  do response <- perform (ListObjectsV2 bucket_name prefix max_keys)
                   (list_objects_v2 E bucket_name prefix max_keys);
  let videos :=
    map project (match Contents response with Some l => l | None => [] end) in
  ret (Build_ResponseModel 200 (url_path request)
         {| count := Z.of_nat (length videos); videos := videos |}).

Definition list_r2_videos (request : Request) (prefix : string) (max_keys : Z)
    (w : list call) : outcome list_data * list call :=
  match list_r2_videos_try request prefix max_keys w with
  | (inr r, w') => (Return r, w')
  | (inl e, w') => (HTTPException 500 ("获取列表失败: " +:+ exc_str e), w')
  end.

(** GET /r2/list_videos with its query string bound ([prefix] defaults
    to ["douyin/"], [max_keys] to 100): the route declares no header. *)
Definition get_list_videos (request : Request) (prefix : string) (max_keys : Z)
    (w : list call) : served list_data * list call :=
  let (o, w') := list_r2_videos request prefix max_keys w in
  (Handled o, w').

Definition get_video_download_url_try (request : Request) (path : string)
    (expires_in : Z) : M (ResponseModel download_url_data) :=
  do presigned_url <- generate_presigned_url path expires_in;
  ret (Build_ResponseModel 200 (url_path request)
         {| url_path_of := path;
            download_url := presigned_url;
            url_expires_in := expires_in |}).

Definition get_video_download_url (request : Request) (path : string)
    (expires_in : Z) (w : list call) : outcome download_url_data * list call :=
  match get_video_download_url_try request path expires_in w with
  | (inr r, w') => (Return r, w')
  | (inl e, w') => (HTTPException 500 ("生成链接失败: " +:+ exc_str e), w')
  end.

(** GET /r2/get_download_url with its query string bound ([expires_in]
    defaults to 3600): the route declares no header. *)
Definition get_get_download_url (request : Request) (path : string)
    (expires_in : Z) (w : list call) : served download_url_data * list call :=
  let (o, w') := get_video_download_url request path expires_in w in
  (Handled o, w').

End Handlers.

(** ** Vocabulary of the statements *)

(** The decimal digit [d], [0 <= d <= 9]. *)
Definition digit (d : Z) : ascii := ascii_of_nat (48 + Z.to_nat d).

(** [n] on two digits, padded with a zero: ["01"], ..., ["31"]. *)
Definition two_digits (n : Z) : string :=
  String (digit (n / 10)) (String (digit (n mod 10)) EmptyString).

(** [n] on four digits. *)
Definition four_digits (n : Z) : string :=
  String (digit (n / 1000))
    (String (digit (n / 100 mod 10))
       (String (digit (n / 10 mod 10)) (String (digit (n mod 10)) EmptyString))).

(** The dates [datetime.now()] can give, with a year of four digits. *)
Definition calendar_date (dt : datetime) : Prop :=
  1000 <= year dt <= 9999 /\ 1 <= month dt <= 12 /\ 1 <= day dt <= 31.





(** The ways metadata resolution fails with a validation error, each
    with its message: the crawler returns nothing (a falsy answer); it
    returns a non-empty dict that is not of type video; it returns a
    video record whose [video_data] is a dict, or is absent, and holds
    no URL for the quality asked. *)
Inductive unresolvable (E : externals) (body : ParseAndUploadRequest) : string -> Prop :=
| crawler_returns_nothing (v : pyval) :
    hybrid_parsing_single_video E (url body) = inr v ->
    truthy v = false ->
    unresolvable E body "无法解析视频信息"
| not_a_video (d : gmap string pyval) :
    hybrid_parsing_single_video E (url body) = inr (PDict d) ->
    truthy (PDict d) = true ->
    eq_str (dict_get d "type" PNone) "video" = false ->
    unresolvable E body
      ("当前仅支持视频类型，检测到类型: " +:+ str (repr E) (dict_get d "type" PNone))
| no_download_url (d urls : gmap string pyval) (w : list call) (u : pyval) :
    hybrid_parsing_single_video E (url body) = inr (PDict d) ->
    d !! "type" = Some (PStr "video") ->
    dict_get d "video_data" (PDict ∅) = PDict urls ->
    select_download_url (quality body) (PDict urls) w = (inr u, w) ->
    truthy u = false ->
    unresolvable E body "无法获取视频下载链接".


(** [x] is one of the characters [sanitize_filename] replaces. *)
Definition is_unsafe (x : codepoint) : bool := existsb (N.eqb x) unsafe_chars.

(** [r] occurs in [s] as a run of consecutive characters. *)
Definition infix_of (r s : list codepoint) : Prop :=
  exists l1 l2, s = (l1 ++ r ++ l2)%list.

(** Lines 238-249 on a dict of URLs, where no [get] can raise. *)
Definition chosen_url (quality : string) (urls : gmap string pyval) : pyval :=
  if String.eqb quality "high" then
    or_ (dict_get urls "nwm_video_url_HQ" PNone) (dict_get urls "nwm_video_url" PNone)
  else if String.eqb quality "low" then
    or_ (dict_get urls "nwm_video_url" PNone) (dict_get urls "nwm_video_url_HQ" PNone)
  else
    or_ (dict_get urls "wm_video_url_HQ" PNone) (dict_get urls "wm_video_url" PNone).

(** The logs one run of the [try] block can leave: the crawler is asked
    once; then, if the record has a URL for the quality asked, one GET
    is sent to it; then, if the GET answered, at most one write of what
    it answered. *)
Inductive upload_calls (E : externals) (body : ParseAndUploadRequest)
  : list call -> Prop :=
| calls_crawl :
    upload_calls E body [Crawl (url body)]
| calls_get (d urls : gmap string pyval) :
    hybrid_parsing_single_video E (url body) = inr (PDict d) ->
    dict_get d "video_data" (PDict ∅) = PDict urls ->
    truthy (chosen_url (quality body) urls) = true ->
    upload_calls E body
      [Crawl (url body); HttpGet (chosen_url (quality body) urls) default_headers]
| calls_put (d urls : gmap string pyval) (resp : http_response) :
    hybrid_parsing_single_video E (url body) = inr (PDict d) ->
    dict_get d "video_data" (PDict ∅) = PDict urls ->
    truthy (chosen_url (quality body) urls) = true ->
    client_get E (chosen_url (quality body) urls) default_headers = inr resp ->
    upload_calls E body
      [Crawl (url body);
       HttpGet (chosen_url (quality body) urls) default_headers;
       PutObject (bucket_name E)
         (object_key_of E (datetime_now E) (dict_get d "video_id" (PStr "unknown")))
         (content resp) "video/mp4"].

(** The collaborators [E], but with a crawler that answers [answer]. *)
Definition with_crawler (E : externals) (answer : exc + pyval) : externals :=
  {| hybrid_parsing_single_video := fun _ => answer;
     client_get := client_get E;
     status_error_str := status_error_str E;
     put_object := put_object E;
     list_objects_v2 := list_objects_v2 E;
     s3_generate_presigned_url := s3_generate_presigned_url E;
     datetime_now := datetime_now E;
     r2_config := r2_config E;
     repr := repr E |}.

(** What a run says about the store: the error raised, or the
    [r2_storage] part of the response. *)
Definition storage_report (o : outcome upload_data) : Z * string + r2_storage_t :=
  match o with
  | Return r => inr (r2_storage (data r))
  | HTTPException status detail => inl (status, detail)
  end.

(** The objects a [list_objects_v2] answer holds. *)
Definition listed (response : list_objects_response) : list s3_object :=
  match Contents response with
  | Some l => l
  | None => []
  end.

(** ** Test doubles *)

(** A crawler that always answers [video], an HTTP client that always
    answers 200 with [payload], a store that accepts every write and
    lists nothing, a clock stopped at [now]. *)
Definition stub_externals (video : pyval) (payload : list byte) (now : datetime)
  : externals :=
  {| hybrid_parsing_single_video := fun _ => inr video;
     client_get := fun _ _ => inr {| status_code := 200; content := payload |};
     status_error_str := fun _ _ => "status error";
     put_object := fun _ _ _ _ => None;
     list_objects_v2 := fun _ _ _ => inr {| Contents := None |};
     s3_generate_presigned_url := fun _ key _ => inr ("https://r2.example/" +:+ key);
     datetime_now := now;
     r2_config := <["bucket_name" := PStr "douyin-videos"]> ∅;
     repr := fun _ => "{...}" |}.

Definition jan_4_2026 : datetime :=
  {| year := 2026; month := 1; day := 4; hour := 9; minute := 30; second := 0;
     microsecond := 0; tzinfo := None |}.

(** A record with only the standard no-watermark URL. *)
Definition sample_video : pyval :=
  PDict (<["type" := PStr "video"]>
         (<["video_id" := PStr "123"]>
          (<["desc" := PStr "a/b"]>
           (<["video_data" :=
                PDict (<["nwm_video_url" := PStr "https://cdn.example/123.mp4"]> ∅)]> ∅)))).

Definition sample_image : pyval :=
  PDict (<["type" := PStr "image"]> (<["video_id" := PStr "77"]> ∅)).

Definition sample_payload : list byte := [x00; x01; x02].

Definition sample_request (auth : option string) : Request :=
  {| url_path := "/api/r2/parse_and_upload"; query_params := []; Auth_header := auth |}.

Definition sample_body (q : string) : ParseAndUploadRequest :=
  {| url := "https://v.douyin.com/L4FJNR3/"; quality := q |}.

Definition sample_externals : externals :=
  stub_externals sample_video sample_payload jan_4_2026.

(** A store that lists [objs], whatever the prefix. *)
Definition listing_externals (objs : list s3_object) : externals :=
  {| hybrid_parsing_single_video := hybrid_parsing_single_video sample_externals;
     client_get := client_get sample_externals;
     status_error_str := status_error_str sample_externals;
     put_object := put_object sample_externals;
     list_objects_v2 := fun _ _ _ => inr {| Contents := Some objs |};
     s3_generate_presigned_url := s3_generate_presigned_url sample_externals;
     datetime_now := datetime_now sample_externals;
     r2_config := r2_config sample_externals;
     repr := repr sample_externals |}.

Definition sample_objects : list s3_object :=
  [ {| obj_Key := "douyin/2026/01/04/123.mp4"; obj_Size := 131072;
       obj_LastModified :=
         {| year := 2026; month := 1; day := 4; hour := 9; minute := 30; second := 5;
            microsecond := 0; tzinfo := Some 0 |} |};
    {| obj_Key := "douyin/2026/01/05/77.mp4"; obj_Size := 5000000;
       obj_LastModified :=
         {| year := 2026; month := 1; day := 5; hour := 18; minute := 2; second := 41;
            microsecond := 120000; tzinfo := Some 0 |} |} ].

(** The crawler answers the request with a video record [d] that has a
    URL for the quality asked among its [urls]: the run reaches the
    download. *)
Definition resolved (E : externals) (body : ParseAndUploadRequest)
    (d urls : gmap string pyval) : Prop :=
  hybrid_parsing_single_video E (url body) = inr (PDict d)
  /\ d !! "type" = Some (PStr "video")
  /\ dict_get d "video_data" (PDict ∅) = PDict urls
  /\ truthy (chosen_url (quality body) urls) = true.

(** What the two [except] clauses of [parse_and_upload_to_r2] raise for
    an exception of the [try] block. *)
Definition http_error_of (e : exc) : outcome upload_data :=
  if is_ValueError e
  then HTTPException 400 (exc_str e)
  else HTTPException 500 ("处理失败: " +:+ exc_str e).

(** The URLs and the record of [sample_video]. *)
Definition sample_urls : gmap string pyval :=
  <["nwm_video_url" := PStr "https://cdn.example/123.mp4"]> ∅.

Definition sample_record : gmap string pyval :=
  <["type" := PStr "video"]>
  (<["video_id" := PStr "123"]>
   (<["desc" := PStr "a/b"]> (<["video_data" := PDict sample_urls]> ∅))).

(** A record without an id, with an author and with a cover. *)
Definition anonymous_record : gmap string pyval :=
  <["type" := PStr "video"]>
  (<["author" := PDict (<["nickname" := PStr "mimi"]> ∅)]>
   (<["cover_data" := PDict (<["cover" := PStr "https://cdn.example/c.jpg"]> ∅)]>
    (<["video_data" := PDict sample_urls]> ∅))).

(** A video record whose URLs are [None]. *)
Definition urlless_record : gmap string pyval :=
  <["type" := PStr "video"]>
  (<["video_id" := PStr "123"]> (<["video_data" := PNone]> ∅)).

(** The record of [sample_video] with a watermark URL besides. *)
Definition watermarked_record : gmap string pyval :=
  <["video_data" :=
      PDict (<["wm_video_url" := PStr "https://cdn.example/wm.mp4"]> sample_urls)]>
  sample_record.

(** Later on the day of [jan_4_2026]. *)
Definition jan_4_2026_evening : datetime :=
  {| year := 2026; month := 1; day := 4; hour := 21; minute := 5; second := 12;
     microsecond := 0; tzinfo := None |}.

(** A record whose cover data is [None]. *)
Definition coverless_record : gmap string pyval :=
  <["type" := PStr "video"]>
  (<["video_id" := PStr "123"]>
   (<["cover_data" := PNone]> (<["video_data" := PDict sample_urls]> ∅))).

(** The collaborators [E] with one of them replaced. *)
Definition with_client_get (E : externals) (answer : exc + http_response) : externals :=
  {| hybrid_parsing_single_video := hybrid_parsing_single_video E;
     client_get := fun _ _ => answer;
     status_error_str := status_error_str E;
     put_object := put_object E;
     list_objects_v2 := list_objects_v2 E;
     s3_generate_presigned_url := s3_generate_presigned_url E;
     datetime_now := datetime_now E;
     r2_config := r2_config E;
     repr := repr E |}.

Definition with_put_object (E : externals) (answer : option exc) : externals :=
  {| hybrid_parsing_single_video := hybrid_parsing_single_video E;
     client_get := client_get E;
     status_error_str := status_error_str E;
     put_object := fun _ _ _ _ => answer;
     list_objects_v2 := list_objects_v2 E;
     s3_generate_presigned_url := s3_generate_presigned_url E;
     datetime_now := datetime_now E;
     r2_config := r2_config E;
     repr := repr E |}.

Definition with_r2_config (E : externals) (config : gmap string pyval) : externals :=
  {| hybrid_parsing_single_video := hybrid_parsing_single_video E;
     client_get := client_get E;
     status_error_str := status_error_str E;
     put_object := put_object E;
     list_objects_v2 := list_objects_v2 E;
     s3_generate_presigned_url := s3_generate_presigned_url E;
     datetime_now := datetime_now E;
     r2_config := config;
     repr := repr E |}.

Definition with_listing (E : externals) (answer : exc + list_objects_response)
  : externals :=
  {| hybrid_parsing_single_video := hybrid_parsing_single_video E;
     client_get := client_get E;
     status_error_str := status_error_str E;
     put_object := put_object E;
     list_objects_v2 := fun _ _ _ => answer;
     s3_generate_presigned_url := s3_generate_presigned_url E;
     datetime_now := datetime_now E;
     r2_config := r2_config E;
     repr := repr E |}.

Definition with_presigner (E : externals) (answer : exc + string) : externals :=
  {| hybrid_parsing_single_video := hybrid_parsing_single_video E;
     client_get := client_get E;
     status_error_str := status_error_str E;
     put_object := put_object E;
     list_objects_v2 := list_objects_v2 E;
     s3_generate_presigned_url := fun _ _ _ => answer;
     datetime_now := datetime_now E;
     r2_config := r2_config E;
     repr := repr E |}.

(** * Properties *)

(** ** Numerals *)

Lemma range_check (f : Z -> bool) (k : Z) :
  forallb f (map Z.of_nat (seq 0 (Z.to_nat k))) = true ->
  forall n, 0 <= n < k -> f n = true.
Proof.
  intros Hall n Hn.
  rewrite forallb_forall in Hall. apply Hall.
  apply in_map_iff. exists (Z.to_nat n). split; [lia|].
  apply in_seq. lia.
Qed.

Lemma fmt_d_two_digits (n : Z) : 0 <= n <= 99 -> fmt_d 2 n = two_digits n.
Proof.
  intros Hn. apply String.eqb_eq.
  apply (range_check (fun n => String.eqb (fmt_d 2 n) (two_digits n)) 100).
  - vm_compute. reflexivity.
  - lia.
Qed.

Lemma fmt_d_four_digits (n : Z) : 0 <= n <= 9999 -> fmt_d 4 n = four_digits n.
Proof.
  intros Hn. apply String.eqb_eq.
  apply (range_check (fun n => String.eqb (fmt_d 4 n) (four_digits n)) 10000).
  - vm_compute. reflexivity.
  - lia.
Qed.

Lemma strftime_Ymd_digits (dt : datetime) :
  calendar_date dt ->
  strftime_Ymd dt
  = four_digits (year dt) +:+ "/" +:+ two_digits (month dt) +:+ "/" +:+ two_digits (day dt).
Proof.
  intros (Hy & Hm & Hd). unfold strftime_Ymd.
  rewrite fmt_d_four_digits by lia.
  rewrite !fmt_d_two_digits by lia.
  reflexivity.
Qed.

(** ** Rounding *)

Lemma round_half_even_close (x : Q) :
  (Qabs (inject_Z (round_half_even x) - x) <= 1 # 2)%Q.
Proof.
  unfold round_half_even.
  pose proof (Qfloor_le x) as Hlo.
  pose proof (Qlt_floor x) as Hhi.
  rewrite inject_Z_plus in Hhi.
  change (inject_Z 1) with 1%Q in Hhi.
  set (f := Qfloor x) in *.
  assert (Hup : (Qabs (inject_Z (f + 1) - x) <= 1 # 2)%Q
                <-> (1 # 2 <= x - inject_Z f)%Q).
  { rewrite inject_Z_plus. change (inject_Z 1) with 1%Q.
    split; intros H.
    - apply Qabs_Qle_condition in H. lra.
    - apply Qabs_Qle_condition. lra. }
  assert (Hdown : (Qabs (inject_Z f - x) <= 1 # 2)%Q
                  <-> (x - inject_Z f <= 1 # 2)%Q).
  { split; intros H.
    - apply Qabs_Qle_condition in H. lra.
    - apply Qabs_Qle_condition. lra. }
  destruct (Qcompare (x - inject_Z f) (1 # 2)) eqn:Hc.
  - apply Qeq_alt in Hc.
    destruct (Z.even f); [apply Hdown | apply Hup]; lra.
  - apply Qlt_alt in Hc. apply Hdown. lra.
  - apply Qgt_alt in Hc. apply Hup. lra.
Qed.

Lemma round2_close (x : Q) : (Qabs (round2 x - x) <= 1 # 200)%Q.
Proof.
  pose proof (round_half_even_close (x * inject_Z 100)) as H.
  unfold round2.
  set (k := round_half_even (x * inject_Z 100)) in *.
  apply Qabs_Qle_condition in H. apply Qabs_Qle_condition.
  assert (Hk : (k # 100 == inject_Z k * (1 # 100))%Q).
  { unfold Qeq, inject_Z. simpl. lia. }
  change (inject_Z 100) with 100%Q in H.
  rewrite Hk. lra.
Qed.

Lemma size_mb_close (n : Z) :
  (Qabs (size_mb n - inject_Z n / inject_Z 1024 / inject_Z 1024) <= 1 # 200)%Q.
Proof. apply round2_close. Qed.

Lemma size_mb_hundredths (n : Z) : Qden (size_mb n) = 100%positive.
Proof. reflexivity. Qed.

(** ** [sanitize_filename] *)

Lemma pairs_ind (P : list codepoint -> Prop) :
  P [] ->
  (forall a, P [a]) ->
  (forall a b t, P t -> P (b :: t) -> P (a :: b :: t)) ->
  forall s, P s.
Proof.
  intros Hnil Hone Hstep s.
  assert (H : P s /\ forall a, P (a :: s)).
  { induction s as [|b t [IH1 IH2]]; split; auto. }
  apply H.
Qed.

Lemma Forall_replace_char (P : codepoint -> Prop) c s :
  P underscore -> Forall P s -> Forall P (replace_char c s).
Proof.
  intros Hu Hs. unfold replace_char. apply Forall_map.
  eapply Forall_impl; [exact Hs|]. intros x Hx. simpl.
  destruct (N.eqb x c); assumption.
Qed.

Lemma replace_char_removes c s :
  underscore <> c -> Forall (fun x => x <> c) (replace_char c s).
Proof.
  intros Hu. unfold replace_char. apply Forall_map.
  apply Forall_forall. intros x _. simpl.
  destruct (N.eqb_spec x c); congruence.
Qed.

Lemma Forall_fold_replace (P : codepoint -> Prop) cs s :
  P underscore -> Forall P s ->
  Forall P (fold_left (fun s c => replace_char c s) cs s).
Proof.
  intros Hu. revert s.
  induction cs as [|c cs IH]; intros s Hs; simpl; [assumption|].
  apply IH. apply Forall_replace_char; assumption.
Qed.

Lemma fold_replace_removes cs s :
  existsb (N.eqb underscore) cs = false ->
  Forall (fun x => existsb (N.eqb x) cs = false)
         (fold_left (fun s c => replace_char c s) cs s).
Proof.
  revert s. induction cs as [|c cs IH]; intros s Hu.
  - simpl. apply Forall_forall. reflexivity.
  - cbn [existsb] in Hu. apply orb_false_iff in Hu as [Hc Hcs].
    apply N.eqb_neq in Hc. cbn [fold_left existsb].
    assert (H1 : Forall (fun x => x <> c)
                   (fold_left (fun s c => replace_char c s) cs (replace_char c s))).
    { apply Forall_fold_replace; [assumption|]. apply replace_char_removes; assumption. }
    specialize (IH (replace_char c s) Hcs).
    rewrite Forall_forall in *. intros x Hx.
    apply orb_false_iff. split; [apply N.eqb_neq; apply H1; exact Hx | apply IH; exact Hx].
Qed.

Lemma Forall_replace_double_underscore (P : codepoint -> Prop) s :
  P underscore -> Forall P s -> Forall P (replace_double_underscore s).
Proof.
  intros Hu. induction s as [|a|a b t IHt IHbt] using pairs_ind; intros Hs.
  - constructor.
  - exact Hs.
  - change (replace_double_underscore (a :: b :: t))
      with (if N.eqb a underscore && N.eqb b underscore
            then underscore :: replace_double_underscore t
            else a :: replace_double_underscore (b :: t)).
    inversion Hs as [|? ? Ha Hbt]; subst.
    inversion Hbt as [|? ? Hb Ht]; subst.
    destruct (N.eqb a underscore && N.eqb b underscore); constructor; auto.
Qed.

Lemma Forall_collapse_underscores (P : codepoint -> Prop) fuel s :
  P underscore -> Forall P s -> Forall P (collapse_underscores fuel s).
Proof.
  intros Hu. revert s. induction fuel as [|k IH]; intros s Hs; simpl; [assumption|].
  destruct (has_double_underscore s); [|assumption].
  apply IH. apply Forall_replace_double_underscore; assumption.
Qed.

Lemma length_replace_double_underscore s :
  (length (replace_double_underscore s) <= length s)%nat
  /\ (has_double_underscore s = true ->
      (length (replace_double_underscore s) < length s)%nat).
Proof.
  induction s as [|a|a b t [IHt1 IHt2] [IHbt1 IHbt2]] using pairs_ind.
  - simpl. split; [lia | discriminate].
  - simpl. split; [lia | discriminate].
  - change (replace_double_underscore (a :: b :: t))
      with (if N.eqb a underscore && N.eqb b underscore
            then underscore :: replace_double_underscore t
            else a :: replace_double_underscore (b :: t)).
    change (has_double_underscore (a :: b :: t))
      with ((N.eqb a underscore && N.eqb b underscore)
            || has_double_underscore (b :: t)).
    destruct (N.eqb a underscore && N.eqb b underscore); simpl orb; simpl length in *.
    + split; intros; lia.
    + split; [lia|]. intros H. specialize (IHbt2 H). lia.
Qed.

(** The loop ends: with [length s] rounds no ["__"] is left. *)
Lemma collapse_underscores_done fuel s :
  (length s <= fuel)%nat ->
  has_double_underscore (collapse_underscores fuel s) = false.
Proof.
  revert s. induction fuel as [|k IH]; intros s Hlen.
  - destruct s; [reflexivity | simpl in Hlen; lia].
  - simpl. destruct (has_double_underscore s) eqn:Hd; [|exact Hd].
    apply IH. pose proof (length_replace_double_underscore s) as [_ H].
    specialize (H Hd). lia.
Qed.

Lemma has_double_underscore_app s1 s2 :
  has_double_underscore (s1 ++ s2) = false ->
  has_double_underscore s1 = false /\ has_double_underscore s2 = false.
Proof.
  induction s1 as [|a s1 IH]; intros H.
  - simpl in *. split; [reflexivity | exact H].
  - destruct s1 as [|b s1].
    + split; [reflexivity|]. simpl in H.
      destruct s2 as [|c s2]; [reflexivity|].
      apply orb_false_iff in H. apply H.
    + change (has_double_underscore ((a :: b :: s1) ++ s2))
        with ((N.eqb a underscore && N.eqb b underscore)
              || has_double_underscore ((b :: s1) ++ s2)) in H.
      apply orb_false_iff in H as [H1 H2].
      specialize (IH H2) as [IHa IHb].
      split; [|exact IHb].
      change (has_double_underscore (a :: b :: s1))
        with ((N.eqb a underscore && N.eqb b underscore)
              || has_double_underscore (b :: s1)).
      rewrite H1, IHa. reflexivity.
Qed.

Lemma has_double_underscore_infix r s :
  infix_of r s -> has_double_underscore s = false -> has_double_underscore r = false.
Proof.
  intros (l1 & l2 & ->) H.
  apply has_double_underscore_app in H as [_ H].
  apply has_double_underscore_app in H as [H _]. exact H.
Qed.

Lemma lstrip_suffix s : exists l, s = (l ++ lstrip s)%list.
Proof.
  induction s as [|x s [l IH]].
  - exists []. reflexivity.
  - simpl. destruct (in_strip_set x).
    + exists (x :: l). simpl. f_equal. exact IH.
    + exists []. reflexivity.
Qed.

Lemma strip_infix s : infix_of (strip s) s.
Proof.
  unfold strip, infix_of.
  destruct (lstrip_suffix s) as [l1 H1].
  destruct (lstrip_suffix (rev (lstrip s))) as [l2 H2].
  exists l1, (rev l2).
  rewrite <- rev_app_distr, <- H2, rev_involutive. exact H1.
Qed.

Lemma slice_to_infix n s : infix_of (slice_to n s) s.
Proof.
  unfold slice_to, infix_of. exists [].
  destruct (n <? 0).
  - exists (drop (Z.to_nat (Z.of_nat (length s) + n)) s). simpl.
    symmetry. apply take_drop.
  - exists (drop (Z.to_nat n) s). simpl. symmetry. apply take_drop.
Qed.

Lemma Forall_infix (P : codepoint -> Prop) r s :
  infix_of r s -> Forall P s -> Forall P r.
Proof.
  intros (l1 & l2 & ->) H.
  apply Forall_app in H as [_ H]. apply Forall_app in H as [H _]. exact H.
Qed.

Lemma infix_of_trans r s t : infix_of r s -> infix_of s t -> infix_of r t.
Proof.
  intros (a & b & ->) (c & d & ->).
  exists (c ++ a)%list, (b ++ d)%list. rewrite <- !app_assoc. reflexivity.
Qed.

Lemma infix_of_refl s : infix_of s s.
Proof. exists [], []. simpl. rewrite app_nil_r. reflexivity. Qed.

(** What [sanitize_filename] returns: the fallback, or a non-empty run
    of the cleaned and collapsed description. *)
Lemma sanitize_filename_cases desc max_length :
  let cleaned := fold_left (fun s c => replace_char c s) unsafe_chars desc in
  let collapsed := collapse_underscores (length cleaned) cleaned in
  sanitize_filename desc max_length = text "video"
  \/ (sanitize_filename desc max_length <> []
      /\ infix_of (sanitize_filename desc max_length) collapsed
      /\ (0 <= max_length ->
          Z.of_nat (length (sanitize_filename desc max_length)) <= max_length)).
Proof.
  intros cleaned collapsed. unfold sanitize_filename.
  destruct desc as [|x desc']; [left; reflexivity|].
  fold cleaned. fold collapsed.
  set (stripped := strip collapsed).
  set (cut := if Z.of_nat (length stripped) >? max_length
              then slice_to max_length stripped else stripped).
  assert (Hinf : infix_of cut collapsed).
  { apply infix_of_trans with stripped; [|apply strip_infix].
    unfold cut. destruct (Z.of_nat (length stripped) >? max_length);
      [apply slice_to_infix | apply infix_of_refl]. }
  assert (Hlen : 0 <= max_length -> Z.of_nat (length cut) <= max_length).
  { intros Hm. unfold cut.
    destruct (Z.gtb_spec (Z.of_nat (length stripped)) max_length) as [Hgt|Hle]; [|lia].
    unfold slice_to. destruct (Z.ltb_spec max_length 0); [lia|].
    rewrite length_take. lia. }
  destruct cut as [|y cut']; [left; reflexivity|].
  right. split; [discriminate|]. split; assumption.
Qed.

Lemma text_video_safe : Forall (fun x => is_unsafe x = false) (text "video").
Proof. repeat constructor. Qed.

Lemma sanitize_filename_safe desc max_length :
  Forall (fun x => is_unsafe x = false) (sanitize_filename desc max_length).
Proof.
  destruct (sanitize_filename_cases desc max_length) as [->|(_ & Hinf & _)].
  - apply text_video_safe.
  - eapply Forall_infix; [exact Hinf|].
    apply Forall_collapse_underscores; [reflexivity|].
    apply fold_replace_removes. reflexivity.
Qed.

Lemma sanitize_filename_no_double_underscore desc max_length :
  has_double_underscore (sanitize_filename desc max_length) = false.
Proof.
  destruct (sanitize_filename_cases desc max_length) as [->|(_ & Hinf & _)].
  - reflexivity.
  - eapply has_double_underscore_infix; [exact Hinf|].
    apply collapse_underscores_done. lia.
Qed.

Lemma sanitize_filename_nonempty desc max_length :
  sanitize_filename desc max_length <> [].
Proof.
  destruct (sanitize_filename_cases desc max_length) as [->|(H & _)].
  - discriminate.
  - exact H.
Qed.

Lemma sanitize_filename_length desc max_length :
  0 <= max_length ->
  sanitize_filename desc max_length = text "video"
  \/ Z.of_nat (length (sanitize_filename desc max_length)) <= max_length.
Proof.
  intros Hm.
  destruct (sanitize_filename_cases desc max_length) as [->|(_ & _ & H)].
  - left. reflexivity.
  - right. apply H. exact Hm.
Qed.

(** ** The upload handler *)

Lemma select_download_url_chosen quality urls w :
  select_download_url quality (PDict urls) w = (inr (chosen_url quality urls), w).
Proof.
  unfold select_download_url, chosen_url, or_, bind, lift, ret, get.
  destruct (String.eqb quality "high"); [|destruct (String.eqb quality "low")];
    match goal with |- context [truthy ?a] => destruct (truthy a) end; reflexivity.
Qed.

Lemma truthy_dict_lookup (d : gmap string pyval) k v :
  d !! k = Some v -> truthy (PDict d) = true.
Proof.
  intros H. simpl. apply negb_true_iff, Nat.eqb_neq.
  apply map_size_non_empty_iff. intros ->. rewrite lookup_empty in H. discriminate.
Qed.

Lemma eq_str_true v s : eq_str v s = true -> v = PStr s.
Proof.
  destruct v; simpl; try discriminate. intros H. apply String.eqb_eq in H. congruence.
Qed.

Section UploadRuns.

Variable E : externals.
Variable request : Request.
Variable body : ParseAndUploadRequest.

(** A run of the [try] block that returns: what the collaborators
    answered, what was logged and what is reported. *)
Lemma parse_and_upload_try_success w r w' :
  parse_and_upload_try E request body w = (inr r, w') ->
  exists d urls resp,
    let sel := chosen_url (quality body) urls in
    let key := object_key_of E (datetime_now E) (dict_get d "video_id" (PStr "unknown")) in
    hybrid_parsing_single_video E (url body) = inr (PDict d)
    /\ dict_get d "type" PNone = PStr "video"
    /\ dict_get d "video_data" (PDict ∅) = PDict urls
    /\ truthy sel = true
    /\ client_get E sel default_headers = inr resp
    /\ is_success resp = true
    /\ content resp <> []
    /\ w' = (w ++ [Crawl (url body); HttpGet sel default_headers;
                   PutObject (bucket_name E) key (content resp) "video/mp4"])%list
    /\ code r = 200
    /\ router r = url_path request
    /\ vi_video_id (video_info (data r)) = dict_get d "video_id" (PStr "unknown")
    /\ vi_desc (video_info (data r)) = dict_get d "desc" (PStr EmptyString)
    /\ r2_storage (data r)
       = {| bucket := dict_get (r2_config E) "bucket_name" PNone;
            path := key;
            file_size := Z.of_nat (length (content resp));
            file_size_mb := size_mb (Z.of_nat (length (content resp))) |}
    /\ data_quality (data r) = quality body.
Proof.
  unfold parse_and_upload_try, bind, perform.
  destruct (hybrid_parsing_single_video E (url body)) as [e|video_data] eqn:Hcrawl;
    [discriminate|].
  destruct (truthy video_data) eqn:Htruthy; [|discriminate]. cbn [negb].
  destruct video_data as [| | | | |d]; try discriminate.
  cbn [lift get].
  destruct (eq_str (dict_get d "type" PNone) "video") eqn:Htype; [|discriminate].
  cbn [negb]. apply eq_str_true in Htype.
  destruct (dict_get d "video_data" (PDict ∅)) as [| | | | |urls] eqn:Hurls;
    try (unfold select_download_url, bind, lift, get;
         repeat match goal with |- context [String.eqb ?a ?b] => destruct (String.eqb a b) end;
         discriminate).
  rewrite select_download_url_chosen.
  destruct (truthy (chosen_url (quality body) urls)) eqn:Hsel; [|discriminate].
  cbn [negb]. unfold download_video, bind, perform, ret, raise.
  destruct (client_get E (chosen_url (quality body) urls) default_headers)
    as [e|resp] eqn:Hget; [discriminate|].
  destruct (is_success resp) eqn:Hok; [|discriminate].
  destruct (content resp) as [|c cs] eqn:Hcontent; [discriminate|].
  unfold upload_to_r2, bind, perform, ret.
  destruct (put_object E _ _ _ _) as [e|]; [discriminate|].
  cbn [lift get is_dict].
  destruct (dict_get d "author" PNone) as [| | | | |a] eqn:Hauthor; cbn [is_dict];
    destruct (dict_get d "cover_data" (PDict ∅)) as [| | | | |cover] eqn:Hcover;
    try discriminate;
    try (destruct (dict_get d "author" (PDict ∅)); try discriminate);
    intros [= <- <-];
    exists d, urls, resp; cbn zeta; rewrite ?Hcontent;
    repeat split; try assumption; try reflexivity; try discriminate;
    rewrite <- !app_assoc; reflexivity.
Qed.

End UploadRuns.

Section UploadCalls.

Variable E : externals.
Variable request : Request.
Variable body : ParseAndUploadRequest.

Lemma select_download_url_raises quality video_urls w :
  is_dict video_urls = false ->
  exists e, select_download_url quality video_urls w = (inl e, w).
Proof.
  intros H. unfold select_download_url, bind, lift.
  destruct video_urls; try discriminate;
    destruct (String.eqb quality "high"); try (eexists; reflexivity);
    destruct (String.eqb quality "low"); eexists; reflexivity.
Qed.

Ltac stops_here :=
  intros [= <- <-]; eexists;
  (split; [rewrite <- ?app_assoc; reflexivity | econstructor; eassumption]).

Lemma parse_and_upload_try_calls w o w' :
  parse_and_upload_try E request body w = (o, w') ->
  exists calls, w' = (w ++ calls)%list /\ upload_calls E body calls.
Proof.
  unfold parse_and_upload_try, bind, perform.
  destruct (hybrid_parsing_single_video E (url body)) as [e|video_data] eqn:Hcrawl;
    [stops_here|].
  destruct (truthy video_data); cbn [negb]; [|stops_here].
  destruct video_data as [| | | | |d]; cbn [lift get]; try stops_here.
  destruct (eq_str (dict_get d "type" PNone) "video"); cbn [negb]; [|stops_here].
  destruct (dict_get d "video_data" (PDict ∅)) as [| | | | |urls] eqn:Hurls;
    try (match goal with
         | |- context [select_download_url ?q ?v ?w0] =>
             destruct (select_download_url_raises q v w0 eq_refl) as [e ->]
         end; stops_here).
  rewrite select_download_url_chosen.
  destruct (truthy (chosen_url (quality body) urls)) eqn:Hsel; cbn [negb];
    [|stops_here].
  unfold download_video, bind, perform, ret, raise.
  destruct (client_get E (chosen_url (quality body) urls) default_headers)
    as [e|resp] eqn:Hget; [stops_here|].
  destruct (is_success resp); [|stops_here].
  destruct (content resp) as [|c cs] eqn:Hcontent; [stops_here|].
  rewrite <- Hcontent.
  unfold upload_to_r2, bind, perform, ret.
  destruct (put_object E _ _ _ _) as [e|]; [stops_here|].
  unfold lift, ret. cbn [get].
  destruct (is_dict (dict_get d "author" PNone));
    repeat match goal with
           | |- context [match get ?v ?k ?x with _ => _ end] => destruct (get v k x)
           end;
    stops_here.
Qed.

End UploadCalls.

(** ** Authentication *)

(** C1, as the code has it.  A request to POST /r2/parse_and_upload
    whose Auth header is not the shared secret is refused and no call
    to the crawler, the HTTP client or the store is made: with status
    401 and the authentication-failure detail when the header is there
    with another value, and with status 422 by the framework, before
    the handler runs, when the header is missing. *)
Theorem parse_and_upload_refuses_bad_auth (E : externals) (request : Request)
    (body : ParseAndUploadRequest) (w : list call) :
  Auth_header request <> Some AUTH_TOKEN ->
  snd (post_parse_and_upload E request body w) = w
  /\ match Auth_header request with
     | Some _ =>
         fst (post_parse_and_upload E request body w)
         = Handled (HTTPException 401 "未认证：无效的 Auth Token")
     | None =>
         fst (post_parse_and_upload E request body w) = Unprocessable
         /\ http_status (fst (post_parse_and_upload E request body w)) = 422
     end.
Proof.
  intros Hauth. unfold post_parse_and_upload, parse_and_upload_to_r2.
  destruct (Auth_header request) as [auth|]; [|repeat split].
  destruct (String.eqb_spec auth AUTH_TOKEN) as [->|Hne]; [congruence|].
  cbn [negb fst snd]. split; reflexivity.
Qed.

Lemma parse_and_upload_refuses_bad_auth_witness :
  Auth_header (sample_request (Some "guess")) <> Some AUTH_TOKEN
  /\ snd (post_parse_and_upload sample_externals (sample_request (Some "guess"))
            (sample_body "high") []) = []
  /\ fst (post_parse_and_upload sample_externals (sample_request (Some "guess"))
            (sample_body "high") [])
     = Handled (HTTPException 401 "未认证：无效的 Auth Token").
Proof.
  assert (H : Auth_header (sample_request (Some "guess")) <> Some AUTH_TOKEN)
    by discriminate.
  split; [exact H|].
  exact (parse_and_upload_refuses_bad_auth sample_externals
           (sample_request (Some "guess")) (sample_body "high") [] H).
Defined.

(** C1 as stated fails: a request without the Auth header is answered
    422, not 401. *)
Lemma missing_auth_header_is_not_401 :
  Auth_header (sample_request None) <> Some AUTH_TOKEN
  /\ http_status (fst (post_parse_and_upload sample_externals (sample_request None)
                         (sample_body "high") [])) = 422
  /\ http_status (fst (post_parse_and_upload sample_externals (sample_request None)
                         (sample_body "high") [])) <> 401.
Proof. split; [discriminate|]. split; [reflexivity | discriminate]. Qed.

(** C10.  GET /r2/list_videos and GET /r2/get_download_url check no
    credential: whatever the Auth header of the request, absent or of
    any value, the answer is the same, its status is never 401, and the
    one call made is the store's. *)
Theorem listing_and_presigning_skip_auth (E : externals) (request : Request)
    (auth : option string) (prefix : string) (max_keys : Z) (path : string)
    (expires_in : Z) (w : list call) :
  let request' :=
    {| url_path := url_path request;
       query_params := query_params request;
       Auth_header := auth |} in
  (get_list_videos E request' prefix max_keys w
   = get_list_videos E request prefix max_keys w
   /\ http_status (fst (get_list_videos E request prefix max_keys w)) <> 401
   /\ snd (get_list_videos E request prefix max_keys w)
      = (w ++ [ListObjectsV2 (bucket_name E) prefix max_keys])%list)
  /\ (get_get_download_url E request' path expires_in w
      = get_get_download_url E request path expires_in w
      /\ http_status (fst (get_get_download_url E request path expires_in w)) <> 401
      /\ snd (get_get_download_url E request path expires_in w)
         = (w ++ [GeneratePresignedUrl (bucket_name E) path expires_in])%list).
Proof.
  cbn zeta. split.
  - unfold get_list_videos, list_r2_videos, list_r2_videos_try, bind, perform, ret.
    cbn [url_path].
    destruct (list_objects_v2 E (bucket_name E) prefix max_keys) as [e|resp];
      cbn [fst snd http_status]; repeat split; discriminate.
  - unfold get_get_download_url, get_video_download_url, get_video_download_url_try,
      generate_presigned_url, bind, perform, ret.
    cbn [url_path].
    destruct (s3_generate_presigned_url E (bucket_name E) path expires_in) as [e|u];
      cbn [fst snd http_status]; repeat split; discriminate.
Qed.

(** ** Resolution failures *)

(** C3, as the code has it.  When the crawler returns nothing, or a
    non-empty dict whose type is not "video" (the message then ends
    with the type detected), or a video record whose [video_data] is a
    dict, or is absent, and has no URL for the quality asked, the
    handler raises 400 with the validation message; the crawler call is
    the only call of the run, so nothing is downloaded or written. *)
Theorem unresolvable_video_is_rejected (E : externals) (request : Request)
    (body : ParseAndUploadRequest) (w : list call) (msg : string) :
  unresolvable E body msg ->
  parse_and_upload_to_r2 E request body AUTH_TOKEN w
  = (HTTPException 400 msg, (w ++ [Crawl (url body)])%list).
Proof.
  intros H. unfold parse_and_upload_to_r2. cbn [String.eqb negb].
  replace (String.eqb AUTH_TOKEN AUTH_TOKEN) with true by (symmetry; apply String.eqb_refl).
  cbn [negb].
  unfold parse_and_upload_try, bind, perform.
  destruct H as [v Hcrawl Hv | d Hcrawl Hd Htype | d urls w0 u Hcrawl Htype Hurls Hsel Hu];
    rewrite Hcrawl.
  - rewrite Hv. reflexivity.
  - rewrite Hd. cbn [negb lift get]. rewrite Htype. reflexivity.
  - rewrite (truthy_dict_lookup d _ _ Htype). cbn [negb lift get].
    unfold dict_get at 1. rewrite Htype. cbn [eq_str String.eqb Ascii.eqb Bool.eqb negb].
    rewrite Hurls. rewrite select_download_url_chosen in *.
    injection Hsel as <-. rewrite Hu. reflexivity.
Qed.

Lemma unresolvable_video_is_rejected_witness :
  let E := stub_externals sample_image sample_payload jan_4_2026 in
  unresolvable E (sample_body "high") "当前仅支持视频类型，检测到类型: image"
  /\ parse_and_upload_to_r2 E (sample_request (Some AUTH_TOKEN)) (sample_body "high")
       AUTH_TOKEN []
     = (HTTPException 400 "当前仅支持视频类型，检测到类型: image",
        [Crawl (url (sample_body "high"))]).
Proof.
  cbn zeta.
  assert (H : unresolvable (stub_externals sample_image sample_payload jan_4_2026)
                (sample_body "high") "当前仅支持视频类型，检测到类型: image").
  { match eval unfold sample_image in sample_image with
    | PDict ?d => apply (not_a_video _ _ d)
    end; reflexivity. }
  split; [exact H|].
  exact (unresolvable_video_is_rejected _ (sample_request (Some AUTH_TOKEN))
           (sample_body "high") [] _ H).
Defined.

(** C3 as stated fails: for a video record whose [video_data] is
    [None] no URL is available for any quality, and the handler
    answers 500, not 400. *)
Lemma video_data_none_is_not_400 :
  let E := with_crawler sample_externals (inr (PDict urlless_record)) in
  let run := parse_and_upload_to_r2 E (sample_request (Some AUTH_TOKEN))
               (sample_body "high") AUTH_TOKEN [] in
  hybrid_parsing_single_video E (url (sample_body "high")) = inr (PDict urlless_record)
  /\ urlless_record !! "type" = Some (PStr "video")
  /\ dict_get urlless_record "video_data" (PDict ∅) = PNone
  /\ (forall quality u w,
        select_download_url quality PNone w <> (inr u, w))
  /\ fst run = HTTPException 500 "处理失败: 'NoneType' object has no attribute 'get'"
  /\ http_status (Handled (fst run)) <> 400.
Proof.
  cbn zeta.
  split; [reflexivity|]. split; [vm_compute; reflexivity|].
  split; [vm_compute; reflexivity|].
  split.
  - intros quality u w. unfold select_download_url, bind, lift.
    destruct (String.eqb quality "high"); [discriminate|].
    destruct (String.eqb quality "low"); discriminate.
  - split; [vm_compute; reflexivity | vm_compute; discriminate].
Qed.

(** ** Runs of the upload handler *)

Lemma append_assoc (s1 s2 s3 : string) : (s1 +:+ s2) +:+ s3 = s1 +:+ (s2 +:+ s3).
Proof.
  induction s1 as [|a s1 IH]; [reflexivity|].
  change (String a ((s1 +:+ s2) +:+ s3) = String a (s1 +:+ (s2 +:+ s3))).
  rewrite IH. reflexivity.
Qed.

Lemma parse_and_upload_to_r2_returns E request body auth w r w' :
  parse_and_upload_to_r2 E request body auth w = (Return r, w') ->
  auth = AUTH_TOKEN /\ parse_and_upload_try E request body w = (inr r, w').
Proof.
  unfold parse_and_upload_to_r2.
  destruct (String.eqb_spec auth AUTH_TOKEN) as [->|Hne]; cbn [negb]; [|discriminate].
  destruct (parse_and_upload_try E request body w) as [[e|r0] w0].
  - destruct (is_ValueError e); discriminate.
  - intros [= <- <-]. split; reflexivity.
Qed.

Lemma parse_and_upload_to_r2_calls E request body auth w o w' :
  parse_and_upload_to_r2 E request body auth w = (o, w') ->
  exists calls, w' = (w ++ calls)%list /\ (calls = [] \/ upload_calls E body calls).
Proof.
  unfold parse_and_upload_to_r2.
  destruct (negb (String.eqb auth AUTH_TOKEN)).
  - intros [= _ <-]. exists []. split; [symmetry; apply app_nil_r | left; reflexivity].
  - destruct (parse_and_upload_try E request body w) as [[e|r0] w0] eqn:Htry;
      apply parse_and_upload_try_calls in Htry as (calls & -> & Hcalls);
      [destruct (is_ValueError e)|]; intros [= _ <-]; exists calls; auto.
Qed.


(** ** Choice of the download URL *)

(** C2.  The URL chosen for a quality is the first of its two
    candidates when that one is there (a non-empty value), and the
    second otherwise: no-watermark HQ then standard for "high",
    no-watermark standard then HQ for "low", watermark HQ then standard
    for "watermark"; so "high" with only the standard no-watermark URL
    chooses that one.  And the GET of a run of the handler goes to the
    URL so chosen from the record the crawler returned. *)
Theorem download_url_follows_quality_chain (E : externals) (request : Request)
    (body : ParseAndUploadRequest) (auth : string) (urls : gmap string pyval)
    (w calls : list call) (o : outcome upload_data) (sel : pyval)
    (headers : gmap string string) :
  let nwm_hq := dict_get urls "nwm_video_url_HQ" PNone in
  let nwm := dict_get urls "nwm_video_url" PNone in
  let wm_hq := dict_get urls "wm_video_url_HQ" PNone in
  let wm := dict_get urls "wm_video_url" PNone in
  (select_download_url "high" (PDict urls) w
   = (inr (if truthy nwm_hq then nwm_hq else nwm), w)
   /\ select_download_url "low" (PDict urls) w
      = (inr (if truthy nwm then nwm else nwm_hq), w)
   /\ select_download_url "watermark" (PDict urls) w
      = (inr (if truthy wm_hq then wm_hq else wm), w)
   /\ (truthy nwm_hq = false ->
       select_download_url "high" (PDict urls) w = (inr nwm, w)))
  /\ (parse_and_upload_to_r2 E request body auth w = (o, (w ++ calls)%list) ->
      In (HttpGet sel headers) calls ->
      exists d urls',
        hybrid_parsing_single_video E (url body) = inr (PDict d)
        /\ dict_get d "video_data" (PDict ∅) = PDict urls'
        /\ select_download_url (quality body) (PDict urls') w = (inr sel, w)
        /\ truthy sel = true).
Proof.
  cbn zeta. split.
  - rewrite !select_download_url_chosen. unfold chosen_url, or_.
    cbn [String.eqb Ascii.eqb Bool.eqb].
    repeat split. intros ->. reflexivity.
  - intros Hrun Hin.
    apply parse_and_upload_to_r2_calls in Hrun as (calls0 & Heq & Hcalls).
    apply app_inv_head in Heq. subst calls0.
    destruct Hcalls as [->|Hcalls]; [destruct Hin|].
    destruct Hcalls as [|d urls' Hcrawl Hurls Hsel|d urls' resp Hcrawl Hurls Hsel Hget];
      cbn [In] in Hin.
    + destruct Hin as [Hin|[]]. discriminate.
    + destruct Hin as [Hin|[Hin|[]]]; [discriminate|].
      injection Hin as <- <-.
      exists d, urls'. rewrite select_download_url_chosen. auto.
    + destruct Hin as [Hin|[Hin|[Hin|[]]]]; [discriminate| |discriminate].
      injection Hin as <- <-.
      exists d, urls'. rewrite select_download_url_chosen. auto.
Qed.

Lemma download_url_follows_quality_chain_witness :
  let run := parse_and_upload_to_r2 sample_externals (sample_request (Some AUTH_TOKEN))
               (sample_body "high") AUTH_TOKEN [] in
  let standard := PStr "https://cdn.example/123.mp4" in
  exists o calls,
    run = (o, ([] ++ calls)%list)
    /\ In (HttpGet standard default_headers) calls
    /\ exists d urls,
         hybrid_parsing_single_video sample_externals (url (sample_body "high"))
         = inr (PDict d)
         /\ dict_get d "video_data" (PDict ∅) = PDict urls
         /\ select_download_url (quality (sample_body "high")) (PDict urls) []
            = (inr standard, [])
         /\ truthy standard = true.
Proof.
  cbn zeta. eexists. eexists.
  assert (Hrun : parse_and_upload_to_r2 sample_externals
                   (sample_request (Some AUTH_TOKEN)) (sample_body "high") AUTH_TOKEN []
                 = (fst (parse_and_upload_to_r2 sample_externals
                           (sample_request (Some AUTH_TOKEN)) (sample_body "high")
                           AUTH_TOKEN []),
                    ([] ++ [Crawl (url (sample_body "high"));
                            HttpGet (PStr "https://cdn.example/123.mp4") default_headers;
                            PutObject (PStr "douyin-videos") "douyin/2026/01/04/123.mp4"
                              sample_payload "video/mp4"])%list))
    by (vm_compute; reflexivity).
  assert (Hin : In (HttpGet (PStr "https://cdn.example/123.mp4") default_headers)
                  [Crawl (url (sample_body "high"));
                   HttpGet (PStr "https://cdn.example/123.mp4") default_headers;
                   PutObject (PStr "douyin-videos") "douyin/2026/01/04/123.mp4"
                     sample_payload "video/mp4"])
    by (right; left; reflexivity).
  split; [exact Hrun|]. split; [exact Hin|].
  exact (proj2 (download_url_follows_quality_chain sample_externals
                  (sample_request (Some AUTH_TOKEN)) (sample_body "high") AUTH_TOKEN ∅
                  [] _ _ _ _) Hrun Hin).
Defined.

(** ** The stored object *)

Lemma object_key_of_digits E now vid :
  calendar_date now ->
  object_key_of E now (PStr vid)
  = "douyin/" +:+ four_digits (year now) +:+ "/" +:+ two_digits (month now)
      +:+ "/" +:+ two_digits (day now) +:+ "/" +:+ vid +:+ ".mp4".
Proof.
  intros Hdate. unfold object_key_of. cbn [str].
  rewrite (strftime_Ymd_digits now Hdate).
  rewrite !append_assoc. reflexivity.
Qed.

(** C4.  A run that returns for a video whose id is the string
    [video_id], on a date of the calendar, has written its one object
    under the key douyin/yyyy/mm/dd/video_id.mp4, month and day on two
    digits, and reports that key as the path. *)
Theorem storage_key_is_date_and_video_id (E : externals) (request : Request)
    (body : ParseAndUploadRequest) (auth : string) (w w' : list call)
    (r : ResponseModel upload_data) (d : gmap string pyval) (video_id : string) :
  parse_and_upload_to_r2 E request body auth w = (Return r, w') ->
  hybrid_parsing_single_video E (url body) = inr (PDict d) ->
  d !! "video_id" = Some (PStr video_id) ->
  calendar_date (datetime_now E) ->
  let now := datetime_now E in
  let key :=
    "douyin/" +:+ four_digits (year now) +:+ "/" +:+ two_digits (month now)
      +:+ "/" +:+ two_digits (day now) +:+ "/" +:+ video_id +:+ ".mp4" in
  path (r2_storage (data r)) = key
  /\ exists sel content,
       w' = (w ++ [Crawl (url body); HttpGet sel default_headers;
                   PutObject (bucket_name E) key content "video/mp4"])%list.
Proof.
  intros Hrun Hcrawl Hid Hdate. cbn zeta.
  apply parse_and_upload_to_r2_returns in Hrun as [_ Htry].
  apply parse_and_upload_try_success in Htry
    as (d' & urls & resp & Hcrawl' & _ & _ & _ & _ & _ & _ & Hw & _ & _ & _ & _ & Hst & _).
  rewrite Hcrawl in Hcrawl'. injection Hcrawl' as <-.
  unfold dict_get in Hw, Hst. rewrite Hid in Hw, Hst.
  rewrite (object_key_of_digits E _ video_id Hdate) in Hw, Hst.
  split; [rewrite Hst; reflexivity|].
  eexists. eexists. exact Hw.
Qed.

Lemma storage_key_is_date_and_video_id_witness :
  let run := parse_and_upload_to_r2 sample_externals (sample_request (Some AUTH_TOKEN))
               (sample_body "high") AUTH_TOKEN [] in
  exists r w' d,
    run = (Return r, w')
    /\ hybrid_parsing_single_video sample_externals (url (sample_body "high"))
       = inr (PDict d)
    /\ d !! "video_id" = Some (PStr "123")
    /\ calendar_date (datetime_now sample_externals)
    /\ path (r2_storage (data r)) = "douyin/2026/01/04/123.mp4".
Proof.
  cbn zeta. eexists. eexists. eexists.
  assert (Hdate : calendar_date (datetime_now sample_externals))
    by (unfold calendar_date; cbn; lia).
  split; [vm_compute; reflexivity|].
  split; [reflexivity|].
  split; [vm_compute; reflexivity|].
  split; [exact Hdate|].
  match goal with
  | |- path (r2_storage (data ?r)) = _ =>
      eapply (proj1 (storage_key_is_date_and_video_id sample_externals
                       (sample_request (Some AUTH_TOKEN)) (sample_body "high")
                       AUTH_TOKEN [] _ r _ "123" _ _ _ Hdate))
  end.
  Unshelve.
  all: try (vm_compute; reflexivity).
Defined.

(** ** Failures *)





(** ** Reported size *)

(** C6.  A run that returns reports as [file_size] the number of bytes
    of the content that the GET answered and that was written to the
    store, and as [file_size_mb] that number divided by 1024 twice and
    rounded to two decimals: a number of hundredths at most half a
    hundredth away from the quotient. *)
Theorem reported_size_is_downloaded_length (E : externals) (request : Request)
    (body : ParseAndUploadRequest) (auth : string) (w w' : list call)
    (r : ResponseModel upload_data) :
  parse_and_upload_to_r2 E request body auth w = (Return r, w') ->
  exists sel resp key,
    let n := Z.of_nat (length (content resp)) in
    let mb := file_size_mb (r2_storage (data r)) in
    client_get E sel default_headers = inr resp
    /\ w' = (w ++ [Crawl (url body); HttpGet sel default_headers;
                   PutObject (bucket_name E) key (content resp) "video/mp4"])%list
    /\ file_size (r2_storage (data r)) = n
    /\ mb = round2 (inject_Z n / inject_Z 1024 / inject_Z 1024)
    /\ Qden mb = 100%positive
    /\ (Qabs (mb - inject_Z n / inject_Z 1024 / inject_Z 1024) <= 1 # 200)%Q.
Proof.
  intros Hrun.
  apply parse_and_upload_to_r2_returns in Hrun as [_ Htry].
  apply parse_and_upload_try_success in Htry
    as (d & urls & resp & _ & _ & _ & _ & Hget & _ & _ & Hw & _ & _ & _ & _ & Hst & _).
  eexists. exists resp. eexists. cbn zeta. rewrite Hst. cbn [file_size file_size_mb].
  split; [exact Hget|]. split; [exact Hw|]. split; [reflexivity|].
  split; [reflexivity|]. split; [reflexivity|]. apply size_mb_close.
Qed.

Lemma reported_size_is_downloaded_length_witness :
  let run := parse_and_upload_to_r2 sample_externals (sample_request (Some AUTH_TOKEN))
               (sample_body "high") AUTH_TOKEN [] in
  exists r w',
    run = (Return r, w')
    /\ file_size (r2_storage (data r)) = 3
    /\ exists sel resp key,
         let n := Z.of_nat (length (content resp)) in
         let mb := file_size_mb (r2_storage (data r)) in
         client_get sample_externals sel default_headers = inr resp
         /\ w' = ([] ++ [Crawl (url (sample_body "high")); HttpGet sel default_headers;
                         PutObject (bucket_name sample_externals) key (content resp)
                           "video/mp4"])%list
         /\ file_size (r2_storage (data r)) = n
         /\ mb = round2 (inject_Z n / inject_Z 1024 / inject_Z 1024)
         /\ Qden mb = 100%positive
         /\ (Qabs (mb - inject_Z n / inject_Z 1024 / inject_Z 1024) <= 1 # 200)%Q.
Proof.
  cbn zeta. eexists. eexists.
  split; [vm_compute; reflexivity|].
  split; [reflexivity|].
  eapply (reported_size_is_downloaded_length sample_externals
            (sample_request (Some AUTH_TOKEN)) (sample_body "high") AUTH_TOKEN []).
  vm_compute. reflexivity.
Defined.

(** ** Listing *)

(** C7.  When the store answers a listing with at most [max_keys]
    objects, a [list_videos] response holds at most [max_keys] entries,
    [count] is their number, and the entries are the listed objects, in
    order, each reduced to its key, its size, its size in megabytes and
    its last-modified time in ISO format. *)
Theorem list_videos_is_capped_projection (E : externals) (request : Request)
    (prefix : string) (max_keys : Z) (w w' : list call)
    (r : ResponseModel list_data) :
  (forall response,
     list_objects_v2 E (bucket_name E) prefix max_keys = inr response ->
     Z.of_nat (length (listed response)) <= max_keys) ->
  list_r2_videos E request prefix max_keys w = (Return r, w') ->
  count (data r) = Z.of_nat (length (videos (data r)))
  /\ count (data r) <= max_keys
  /\ exists response,
       list_objects_v2 E (bucket_name E) prefix max_keys = inr response
       /\ Forall2
            (fun obj entry =>
               entry_key entry = obj_Key obj
               /\ entry_size entry = obj_Size obj
               /\ entry_size_mb entry
                  = round2 (inject_Z (obj_Size obj) / inject_Z 1024 / inject_Z 1024)
               /\ entry_last_modified entry = isoformat (obj_LastModified obj))
            (listed response) (videos (data r)).
Proof.
  intros Hcap. unfold list_r2_videos, list_r2_videos_try, bind, perform, ret.
  destruct (list_objects_v2 E (bucket_name E) prefix max_keys) as [e|response] eqn:Hlist;
    [discriminate|].
  intros [= <- <-]. cbn [data count videos].
  fold (listed response).
  split; [reflexivity|].
  split.
  - rewrite length_map. apply Hcap. reflexivity.
  - exists response. split; [reflexivity|].
    induction (listed response) as [|obj objs IH]; constructor.
    + repeat split.
    + exact IH.
Qed.

Lemma list_videos_is_capped_projection_witness :
  let E := listing_externals sample_objects in
  let request := sample_request None in
  exists r w',
    (forall response,
       list_objects_v2 E (bucket_name E) "douyin/" 5 = inr response ->
       Z.of_nat (length (listed response)) <= 5)
    /\ list_r2_videos E request "douyin/" 5 [] = (Return r, w')
    /\ count (data r) = 2
    /\ count (data r) <= 5.
Proof.
  cbn zeta. eexists. eexists.
  assert (Hcap : forall response,
             list_objects_v2 (listing_externals sample_objects)
               (bucket_name (listing_externals sample_objects)) "douyin/" 5
             = inr response ->
             Z.of_nat (length (listed response)) <= 5).
  { intros response [= <-]. cbn. lia. }
  split; [exact Hcap|].
  split; [vm_compute; reflexivity|].
  split; [reflexivity|].
  match goal with
  | |- count (data ?r) <= _ =>
      exact (proj1 (proj2 (list_videos_is_capped_projection
                             (listing_externals sample_objects) (sample_request None)
                             "douyin/" 5 [] _ r Hcap eq_refl)))
  end.
Defined.

(** ** Quality values outside the enumeration *)


Ltac split_runs :=
  repeat (cbv beta match;
          match goal with
          | |- context [match ?x with _ => _ end] =>
              lazymatch x with
              | context [match _ with _ => _ end] => fail
              | _ => destruct x eqn:?
              end
          end).



(** ** The unused sanitiser *)

Lemma dict_get_insert_ne (d : gmap string pyval) k k' v default :
  k <> k' -> dict_get (<[k := v]> d) k' default = dict_get d k' default.
Proof. intros H. unfold dict_get. rewrite lookup_insert_ne by exact H. reflexivity. Qed.

Lemma truthy_dict_insert (d : gmap string pyval) k v :
  truthy (PDict (<[k := v]> d)) = true.
Proof. apply (truthy_dict_lookup _ k v). apply lookup_insert_eq. Qed.

(** The description of the record has no part in what a run calls, in
    what it stores or in the error it raises. *)
Lemma upload_ignores_desc E request body auth w (d : gmap string pyval) new_desc :
  truthy (PDict d) = true ->
  let run := parse_and_upload_to_r2 (with_crawler E (inr (PDict d))) request body auth w in
  let run' :=
    parse_and_upload_to_r2
      (with_crawler E (inr (PDict (<["desc" := new_desc]> d)))) request body auth w in
  snd run' = snd run /\ storage_report (fst run') = storage_report (fst run).
Proof.
  intros Hd. cbn zeta. unfold parse_and_upload_to_r2.
  destruct (negb (String.eqb auth AUTH_TOKEN)); [split; reflexivity|].
  unfold parse_and_upload_try, bind, perform, lift.
  cbn [with_crawler hybrid_parsing_single_video].
  rewrite truthy_dict_insert, Hd. cbn [negb get].
  unfold object_key_of, upload_to_r2, download_video, bucket_name, bind, perform, ret, raise.
  cbn [with_crawler client_get put_object r2_config repr datetime_now status_error_str].
  rewrite !dict_get_insert_ne by discriminate.
  destruct (eq_str (dict_get d "type" PNone) "video"); cbn [negb];
    [|split; reflexivity].
  destruct (select_download_url (quality body) (dict_get d "video_data" (PDict ∅))
              (w ++ [Crawl (url body)])%list) as [[e|download_url] w1];
    [destruct (is_ValueError e); split; reflexivity|].
  split_runs; split; reflexivity.
Qed.

(** C8, as the code has it.  For every description and maximum length,
    [sanitize_filename] returns a string without any of the unsafe
    characters, without two consecutive underscores and not empty; when
    the maximum is not negative, the string is the fallback "video" or
    is at most the maximum long.  The upload path does not use it: the
    calls of a run, the key it writes and the storage it reports are
    the same whatever the description of the record. *)
Theorem sanitize_filename_is_safe_and_unused (desc : list codepoint) (max_length : Z)
    (E : externals) (request : Request) (body : ParseAndUploadRequest)
    (auth : string) (w : list call) (d : gmap string pyval) (new_desc : pyval) :
  truthy (PDict d) = true ->
  let name := sanitize_filename desc max_length in
  let run := parse_and_upload_to_r2 (with_crawler E (inr (PDict d))) request body auth w in
  let run' :=
    parse_and_upload_to_r2
      (with_crawler E (inr (PDict (<["desc" := new_desc]> d)))) request body auth w in
  Forall (fun x => is_unsafe x = false) name
  /\ has_double_underscore name = false
  /\ name <> []
  /\ (0 <= max_length ->
      name = text "video" \/ Z.of_nat (length name) <= max_length)
  /\ snd run' = snd run
  /\ storage_report (fst run') = storage_report (fst run).
Proof.
  intros Hd. cbn zeta.
  split; [apply sanitize_filename_safe|].
  split; [apply sanitize_filename_no_double_underscore|].
  split; [apply sanitize_filename_nonempty|].
  split; [apply sanitize_filename_length|].
  apply (upload_ignores_desc E request body auth w d new_desc Hd).
Qed.

Lemma sanitize_filename_is_safe_and_unused_witness :
  let name := sanitize_filename (text "cats: #1 __ @home?") 12 in
  let d : gmap string pyval :=
    <["type" := PStr "video"]> (<["video_id" := PStr "123"]> ∅) in
  truthy (PDict d) = true
  /\ name = text "cats_ _1 _ _"
  /\ Forall (fun x => is_unsafe x = false) name
  /\ has_double_underscore name = false
  /\ name <> []
  /\ (0 <= 12 -> name = text "video" \/ Z.of_nat (length name) <= 12)
  /\ snd (parse_and_upload_to_r2
            (with_crawler sample_externals
               (inr (PDict (<["desc" := PStr "cats: #1 __ @home?"]> d))))
            (sample_request (Some AUTH_TOKEN)) (sample_body "high") AUTH_TOKEN [])
     = snd (parse_and_upload_to_r2 (with_crawler sample_externals (inr (PDict d)))
              (sample_request (Some AUTH_TOKEN)) (sample_body "high") AUTH_TOKEN [])
  /\ storage_report
       (fst (parse_and_upload_to_r2
               (with_crawler sample_externals
                  (inr (PDict (<["desc" := PStr "cats: #1 __ @home?"]> d))))
               (sample_request (Some AUTH_TOKEN)) (sample_body "high") AUTH_TOKEN []))
     = storage_report
         (fst (parse_and_upload_to_r2 (with_crawler sample_externals (inr (PDict d)))
                 (sample_request (Some AUTH_TOKEN)) (sample_body "high") AUTH_TOKEN [])).
Proof.
  cbn zeta.
  assert (Hd : truthy (PDict (<["type" := PStr "video"]>
                               (<["video_id" := PStr "123"]> ∅))) = true)
    by (vm_compute; reflexivity).
  split; [exact Hd|].
  split; [vm_compute; reflexivity|].
  exact (sanitize_filename_is_safe_and_unused (text "cats: #1 __ @home?") 12
           sample_externals (sample_request (Some AUTH_TOKEN)) (sample_body "high")
           AUTH_TOKEN [] _ (PStr "cats: #1 __ @home?") Hd).
Defined.

(** C8 as stated fails: the fallback "video" is longer than a maximum
    below five. *)
Lemma sanitize_filename_exceeds_small_maximum :
  sanitize_filename [] 3 = text "video"
  /\ ~ Z.of_nat (length (sanitize_filename [] 3)) <= 3.
Proof. split; [reflexivity | cbn; lia]. Qed.

(** * Further properties *)

(** ** More on [sanitize_filename] *)

Lemma lstrip_head s x r : lstrip s = x :: r -> in_strip_set x = false.
Proof.
  induction s as [|a s IH]; simpl; [discriminate|].
  destruct (in_strip_set a) eqn:Ha; [exact IH|].
  intros [= <- _]. exact Ha.
Qed.

Lemma lstrip_clean s :
  (forall x, head s = Some x -> in_strip_set x = false) -> lstrip s = s.
Proof.
  destruct s as [|a s]; [reflexivity|]. intros H. simpl.
  rewrite (H a eq_refl). reflexivity.
Qed.

Lemma last_rev (s : list codepoint) : last (rev s) = head s.
Proof. destruct s as [|a s]; [reflexivity|]. simpl. apply last_snoc. Qed.

Lemma head_rev (s : list codepoint) : head (rev s) = last s.
Proof. rewrite <- (rev_involutive s) at 2. symmetry. apply last_rev. Qed.

Lemma strip_prefix s : exists t, lstrip s = (strip s ++ t)%list.
Proof.
  unfold strip. destruct (lstrip_suffix (rev (lstrip s))) as [l H].
  exists (rev l). rewrite <- rev_app_distr, <- H, rev_involutive. reflexivity.
Qed.

Lemma strip_head s x : head (strip s) = Some x -> in_strip_set x = false.
Proof.
  intros H. apply head_Some in H as [r Hr].
  destruct (strip_prefix s) as [t Ht]. rewrite Hr in Ht.
  apply (lstrip_head s x (r ++ t)%list). exact Ht.
Qed.

Lemma strip_last s y : last (strip s) = Some y -> in_strip_set y = false.
Proof.
  unfold strip. rewrite last_rev. intros H.
  apply head_Some in H as [r Hr]. apply (lstrip_head _ _ _ Hr).
Qed.

Lemma strip_clean s :
  (forall x, head s = Some x -> in_strip_set x = false) ->
  (forall y, last s = Some y -> in_strip_set y = false) ->
  strip s = s.
Proof.
  intros Hh Hl. unfold strip. rewrite (lstrip_clean s Hh).
  rewrite lstrip_clean; [apply rev_involutive|].
  intros x. rewrite head_rev. apply Hl.
Qed.

Lemma length_infix r s : infix_of r s -> (length r <= length s)%nat.
Proof. intros (l1 & l2 & ->). rewrite !length_app. lia. Qed.

Lemma length_fold_replace cs s :
  length (fold_left (fun s c => replace_char c s) cs s) = length s.
Proof.
  revert s. induction cs as [|c cs IH]; intros s; simpl; [reflexivity|].
  rewrite IH. unfold replace_char. apply length_map.
Qed.

Lemma length_collapse_underscores fuel s :
  (length (collapse_underscores fuel s) <= length s)%nat.
Proof.
  revert s. induction fuel as [|k IH]; intros s; simpl; [lia|].
  destruct (has_double_underscore s); [|lia].
  specialize (IH (replace_double_underscore s)).
  pose proof (length_replace_double_underscore s) as [H _]. lia.
Qed.

Lemma replace_char_absent c s :
  Forall (fun x => x <> c) s -> replace_char c s = s.
Proof.
  induction 1 as [|x s Hx _ IH]; [reflexivity|].
  unfold replace_char in *. simpl. rewrite IH.
  destruct (N.eqb_spec x c); [contradiction | reflexivity].
Qed.

Lemma fold_replace_absent cs s :
  Forall (fun x => existsb (N.eqb x) cs = false) s ->
  fold_left (fun s c => replace_char c s) cs s = s.
Proof.
  revert s. induction cs as [|c cs IH]; intros s H; [reflexivity|].
  cbn [fold_left]. rewrite replace_char_absent.
  - apply IH. eapply Forall_impl; [exact H|]. intros x Hx. cbn [existsb] in Hx.
    apply orb_false_iff in Hx. apply Hx.
  - eapply Forall_impl; [exact H|]. intros x Hx. cbn [existsb] in Hx.
    apply orb_false_iff in Hx as [Hx _]. apply N.eqb_neq. exact Hx.
Qed.

(** The result is the fallback, or what is left of the stripped string
    after the cut; nothing is cut from a description that fits. *)
Lemma sanitize_filename_prefix desc max_length :
  let cleaned := fold_left (fun s c => replace_char c s) unsafe_chars desc in
  let stripped := strip (collapse_underscores (length cleaned) cleaned) in
  sanitize_filename desc max_length = text "video"
  \/ exists t,
       stripped = (sanitize_filename desc max_length ++ t)%list
       /\ (Z.of_nat (length desc) <= max_length -> t = []).
Proof.
  intros cleaned stripped. unfold sanitize_filename.
  destruct desc as [|x desc']; [left; reflexivity|].
  fold cleaned. fold stripped.
  assert (Hlen : (length stripped <= length (x :: desc'))%nat).
  { unfold stripped.
    pose proof (length_infix _ _ (strip_infix
                  (collapse_underscores (length cleaned) cleaned))).
    pose proof (length_collapse_underscores (length cleaned) cleaned).
    unfold cleaned in *. rewrite length_fold_replace in *. lia. }
  destruct (Z.gtb_spec (Z.of_nat (length stripped)) max_length) as [Hgt|Hle].
  - unfold slice_to.
    destruct (max_length <? 0);
      match goal with
      | |- context [take ?k stripped] =>
          destruct (take k stripped) as [|y cut'] eqn:Hcut; [left; reflexivity|];
          right; exists (drop k stripped); split;
          [rewrite <- Hcut; symmetry; apply take_drop | intros; lia]
      end.
  - destruct stripped as [|y cut']; [left; reflexivity|].
    right. exists []. split; [symmetry; apply app_nil_r | reflexivity].
Qed.

(** X1.  A sanitised name never starts with an underscore or a space;
    and when the description is no longer than the maximum, so that
    nothing is cut, it does not end with one either. *)
Theorem sanitize_filename_edges_are_stripped (desc : list codepoint) (max_length : Z) :
  (forall x, head (sanitize_filename desc max_length) = Some x ->
             in_strip_set x = false)
  /\ (Z.of_nat (length desc) <= max_length ->
      forall y, last (sanitize_filename desc max_length) = Some y ->
                in_strip_set y = false).
Proof.
  destruct (sanitize_filename_prefix desc max_length) as [->|(t & Ht & Hfit)].
  - split; [intros x [= <-] | intros _ y [= <-]]; reflexivity.
  - split.
    + intros x Hx. apply head_Some in Hx as [r Hr]. rewrite Hr in Ht.
      eapply strip_head. rewrite Ht. reflexivity.
    + intros Hlen y Hy. rewrite (Hfit Hlen), app_nil_r in Ht.
      eapply strip_last. rewrite Ht. exact Hy.
Qed.

Lemma sanitize_filename_edges_are_stripped_witness :
  Z.of_nat (length (text "_ a#b _")) <= 50
  /\ sanitize_filename (text "_ a#b _") 50 = text "a_b"
  /\ forall y, last (sanitize_filename (text "_ a#b _") 50) = Some y ->
               in_strip_set y = false.
Proof.
  assert (H : Z.of_nat (length (text "_ a#b _")) <= 50) by (cbn; lia).
  split; [exact H|]. split; [vm_compute; reflexivity|].
  exact (proj2 (sanitize_filename_edges_are_stripped (text "_ a#b _") 50) H).
Defined.

(** X2.  A description that is already a clean name (not empty, no
    unsafe character, no two underscores in a row, no underscore or
    space at either end) and fits the maximum is returned unchanged. *)
Theorem sanitize_filename_keeps_clean_names (desc : list codepoint) (max_length : Z) :
  desc <> [] ->
  Forall (fun x => is_unsafe x = false) desc ->
  has_double_underscore desc = false ->
  (forall x, head desc = Some x -> in_strip_set x = false) ->
  (forall y, last desc = Some y -> in_strip_set y = false) ->
  Z.of_nat (length desc) <= max_length ->
  sanitize_filename desc max_length = desc.
Proof.
  intros Hne Hsafe Hdouble Hhead Hlast Hlen. unfold sanitize_filename.
  destruct desc as [|x desc']; [contradiction|].
  rewrite (fold_replace_absent unsafe_chars (x :: desc') Hsafe).
  assert (Hcollapse : collapse_underscores (length (x :: desc')) (x :: desc')
                      = x :: desc').
  { cbn [length collapse_underscores]. rewrite Hdouble. reflexivity. }
  rewrite Hcollapse, (strip_clean _ Hhead Hlast).
  destruct (Z.gtb_spec (Z.of_nat (length (x :: desc'))) max_length); [lia|].
  reflexivity.
Qed.

Lemma sanitize_filename_keeps_clean_names_witness :
  text "my cat_2" <> []
  /\ Forall (fun x => is_unsafe x = false) (text "my cat_2")
  /\ has_double_underscore (text "my cat_2") = false
  /\ (forall x, head (text "my cat_2") = Some x -> in_strip_set x = false)
  /\ (forall y, last (text "my cat_2") = Some y -> in_strip_set y = false)
  /\ Z.of_nat (length (text "my cat_2")) <= 50
  /\ sanitize_filename (text "my cat_2") 50 = text "my cat_2".
Proof.
  assert (H1 : text "my cat_2" <> []) by discriminate.
  assert (H2 : Forall (fun x => is_unsafe x = false) (text "my cat_2"))
    by (repeat constructor).
  assert (H3 : has_double_underscore (text "my cat_2") = false) by reflexivity.
  assert (H4 : forall x, head (text "my cat_2") = Some x -> in_strip_set x = false)
    by (intros x [= <-]; reflexivity).
  assert (H5 : forall y, last (text "my cat_2") = Some y -> in_strip_set y = false)
    by (intros y [= <-]; reflexivity).
  assert (H6 : Z.of_nat (length (text "my cat_2")) <= 50) by (cbn; lia).
  repeat (split; [assumption|]).
  exact (sanitize_filename_keeps_clean_names _ 50 H1 H2 H3 H4 H5 H6).
Defined.

(** X3.  With a maximum of five or more, and so with the default of
    fifty, the name is between one and the maximum characters long,
    the fallback included. *)
Theorem sanitize_filename_fits_from_five (desc : list codepoint) (max_length : Z) :
  5 <= max_length ->
  1 <= Z.of_nat (length (sanitize_filename desc max_length)) <= max_length
  /\ 1 <= Z.of_nat (length (sanitize_filename_default desc)) <= 50.
Proof.
  assert (H : forall m, 5 <= m ->
                1 <= Z.of_nat (length (sanitize_filename desc m)) <= m).
  { intros m Hm.
    pose proof (sanitize_filename_nonempty desc m) as Hne.
    destruct (sanitize_filename_length desc m ltac:(lia)) as [Hv|Hle].
    - rewrite Hv. cbn. lia.
    - destruct (sanitize_filename desc m); [contradiction | cbn [length] in *; lia]. }
  intros Hm. split; [apply H; exact Hm | apply H; lia].
Qed.

Lemma sanitize_filename_fits_from_five_witness :
  5 <= 5
  /\ sanitize_filename (text "a/very long: description") 5 = text "a_ver"
  /\ 1 <= Z.of_nat (length (sanitize_filename (text "a/very long: description") 5)) <= 5.
Proof.
  assert (H : 5 <= 5) by lia.
  split; [exact H|]. split; [vm_compute; reflexivity|].
  exact (proj1 (sanitize_filename_fits_from_five (text "a/very long: description") 5 H)).
Defined.

(** ** Runs of the upload handler, stage by stage *)

Lemma parse_and_upload_to_r2_authorized E request body w :
  parse_and_upload_to_r2 E request body AUTH_TOKEN w
  = match parse_and_upload_try E request body w with
    | (inr r, w') => (Return r, w')
    | (inl e, w') => (http_error_of e, w')
    end.
Proof.
  unfold parse_and_upload_to_r2, http_error_of.
  replace (String.eqb AUTH_TOKEN AUTH_TOKEN) with true
    by (symmetry; apply String.eqb_refl).
  cbn [negb].
  destruct (parse_and_upload_try E request body w) as [[e|r] w'];
    [destruct (is_ValueError e)|]; reflexivity.
Qed.

Ltac reach_download Hres :=
  let Hcrawl := fresh "Hcrawl" in
  let Htype := fresh "Htype" in
  let Hurls := fresh "Hurls" in
  let Hsel := fresh "Hsel" in
  destruct Hres as (Hcrawl & Htype & Hurls & Hsel);
  rewrite parse_and_upload_to_r2_authorized;
  unfold parse_and_upload_try, bind, perform;
  rewrite Hcrawl, (truthy_dict_lookup _ _ _ Htype);
  cbn [negb lift get];
  unfold dict_get at 1; rewrite Htype;
  cbn [eq_str String.eqb Ascii.eqb Bool.eqb negb];
  rewrite Hurls, select_download_url_chosen, Hsel;
  cbn [negb];
  unfold download_video, bind, perform, ret, raise.

(** X4.  When the crawler itself raises, the handler answers by the
    class of the exception: 400 with its text for a [ValueError], 500
    with the prefixed text for any other; the crawler call is the only
    call of the run. *)
Theorem crawler_exception_is_answered_by_class (E : externals) (request : Request)
    (body : ParseAndUploadRequest) (w : list call) (e : exc) :
  hybrid_parsing_single_video E (url body) = inl e ->
  parse_and_upload_to_r2 E request body AUTH_TOKEN w
  = (http_error_of e, (w ++ [Crawl (url body)])%list)
  /\ (is_ValueError e = true -> http_error_of e = HTTPException 400 (exc_str e))
  /\ (is_ValueError e = false ->
      http_error_of e = HTTPException 500 ("处理失败: " +:+ exc_str e)).
Proof.
  intros Hcrawl. split.
  - rewrite parse_and_upload_to_r2_authorized.
    unfold parse_and_upload_try, bind, perform. rewrite Hcrawl. reflexivity.
  - unfold http_error_of. split; intros ->; reflexivity.
Qed.

Lemma crawler_exception_is_answered_by_class_witness :
  let E := with_crawler sample_externals (inl (Exc true "Expecting value: line 1")) in
  hybrid_parsing_single_video E (url (sample_body "high"))
  = inl (Exc true "Expecting value: line 1")
  /\ parse_and_upload_to_r2 E (sample_request (Some AUTH_TOKEN)) (sample_body "high")
       AUTH_TOKEN []
     = (HTTPException 400 "Expecting value: line 1", [Crawl (url (sample_body "high"))]).
Proof.
  cbn zeta.
  assert (H : hybrid_parsing_single_video
                (with_crawler sample_externals (inl (Exc true "Expecting value: line 1")))
                (url (sample_body "high"))
              = inl (Exc true "Expecting value: line 1")) by reflexivity.
  split; [exact H|].
  exact (proj1 (crawler_exception_is_answered_by_class _
                  (sample_request (Some AUTH_TOKEN)) (sample_body "high") [] _ H)).
Defined.

(** X5.  A crawler answer that is truthy but not a dict, or a video
    record whose [video_data] is there but is not a dict, makes the
    handler answer 500 with the text of the [AttributeError], not 400;
    no download is attempted. *)
Theorem malformed_record_is_answered_500 (E : externals) (request : Request)
    (body : ParseAndUploadRequest) (w : list call) (v : pyval)
    (d : gmap string pyval) :
  is_dict v = false ->
  (hybrid_parsing_single_video E (url body) = inr v /\ truthy v = true)
  \/ (hybrid_parsing_single_video E (url body) = inr (PDict d)
      /\ d !! "type" = Some (PStr "video")
      /\ d !! "video_data" = Some v) ->
  parse_and_upload_to_r2 E request body AUTH_TOKEN w
  = (HTTPException 500
       ("处理失败: " +:+ "'" +:+ type_name v +:+ "' object has no attribute 'get'"),
     (w ++ [Crawl (url body)])%list).
Proof.
  intros Hv H. rewrite parse_and_upload_to_r2_authorized.
  unfold parse_and_upload_try, bind, perform.
  destruct H as [[Hcrawl Ht]|(Hcrawl & Htype & Hvd)]; rewrite Hcrawl.
  - rewrite Ht. cbn [negb lift].
    destruct v; try discriminate; reflexivity.
  - rewrite (truthy_dict_lookup _ _ _ Htype). cbn [negb lift get].
    unfold dict_get. rewrite Htype, Hvd.
    cbn [eq_str String.eqb Ascii.eqb Bool.eqb negb].
    destruct (select_download_url_raises (quality body) v (w ++ [Crawl (url body)])%list Hv)
      as [e He].
    rewrite He.
    revert He. unfold select_download_url, bind, lift.
    destruct v; try discriminate;
      destruct (String.eqb (quality body) "high");
      try destruct (String.eqb (quality body) "low");
      intros [= <-]; reflexivity.
Qed.

Lemma malformed_record_is_answered_500_witness :
  let d : gmap string pyval :=
    <["type" := PStr "video"]> (<["video_data" := PNone]> ∅) in
  let E := with_crawler sample_externals (inr (PDict d)) in
  is_dict PNone = false
  /\ hybrid_parsing_single_video E (url (sample_body "high")) = inr (PDict d)
  /\ d !! "type" = Some (PStr "video")
  /\ d !! "video_data" = Some PNone
  /\ parse_and_upload_to_r2 E (sample_request (Some AUTH_TOKEN)) (sample_body "high")
       AUTH_TOKEN []
     = (HTTPException 500 "处理失败: 'NoneType' object has no attribute 'get'",
        [Crawl (url (sample_body "high"))]).
Proof.
  cbn zeta.
  set (d := <["type" := PStr "video"]> (<["video_data" := PNone]> ∅) : gmap string pyval).
  assert (H1 : is_dict PNone = false) by reflexivity.
  assert (H2 : hybrid_parsing_single_video (with_crawler sample_externals (inr (PDict d)))
                 (url (sample_body "high")) = inr (PDict d)) by reflexivity.
  assert (H3 : d !! "type" = Some (PStr "video")) by (vm_compute; reflexivity).
  assert (H4 : d !! "video_data" = Some PNone) by (vm_compute; reflexivity).
  repeat (split; [assumption|]).
  exact (malformed_record_is_answered_500 _ (sample_request (Some AUTH_TOKEN))
           (sample_body "high") [] PNone d H1 (or_intror (conj H2 (conj H3 H4)))).
Defined.

(** X6.  When the GET answers with a status outside 200-299, the handler
    answers 500 with the text of the status error; the run has called
    the crawler and sent the GET, and nothing is written. *)
Theorem bad_status_is_answered_500 (E : externals) (request : Request)
    (body : ParseAndUploadRequest) (w : list call) (d urls : gmap string pyval)
    (resp : http_response) :
  resolved E body d urls ->
  let sel := chosen_url (quality body) urls in
  client_get E sel default_headers = inr resp ->
  (status_code resp < 200 \/ 299 < status_code resp) ->
  parse_and_upload_to_r2 E request body AUTH_TOKEN w
  = (HTTPException 500 ("处理失败: " +:+ status_error_str E sel resp),
     (w ++ [Crawl (url body); HttpGet sel default_headers])%list).
Proof.
  intros Hres sel Hget Hstatus. reach_download Hres.
  fold sel. rewrite Hget.
  assert (Hok : is_success resp = false).
  { unfold is_success. apply andb_false_iff.
    destruct Hstatus; [left | right]; apply Z.leb_gt; assumption. }
  rewrite Hok, <- app_assoc. reflexivity.
Qed.

Lemma bad_status_is_answered_500_witness :
  let E := with_client_get sample_externals
             (inr {| status_code := 403; content := [x00] |}) in
  exists d urls,
    resolved E (sample_body "high") d urls
    /\ client_get E (chosen_url "high" urls) default_headers
       = inr {| status_code := 403; content := [x00] |}
    /\ (403 < 200 \/ 299 < 403)
    /\ parse_and_upload_to_r2 E (sample_request (Some AUTH_TOKEN)) (sample_body "high")
         AUTH_TOKEN []
       = (HTTPException 500 "处理失败: status error",
          [Crawl (url (sample_body "high"));
           HttpGet (PStr "https://cdn.example/123.mp4") default_headers]).
Proof.
  cbn zeta. eexists. eexists.
  assert (Hres : resolved
                   (with_client_get sample_externals
                      (inr {| status_code := 403; content := [x00] |}))
                   (sample_body "high")
                   (<["type" := PStr "video"]>
                    (<["video_id" := PStr "123"]>
                     (<["desc" := PStr "a/b"]>
                      (<["video_data" :=
                           PDict (<["nwm_video_url" := PStr "https://cdn.example/123.mp4"]> ∅)]>
                       ∅))))
                   (<["nwm_video_url" := PStr "https://cdn.example/123.mp4"]> ∅))
    by (repeat split; vm_compute; reflexivity).
  assert (Hstatus : 403 < 200 \/ 299 < 403) by (right; lia).
  split; [exact Hres|]. split; [reflexivity|]. split; [exact Hstatus|].
  exact (bad_status_is_answered_500 _ (sample_request (Some AUTH_TOKEN))
           (sample_body "high") [] _ _ _ Hres eq_refl Hstatus).
Defined.

(** X7.  When the GET answers 2xx with an empty body, the handler
    answers 400 with the download-failure message, and nothing is
    written. *)
Theorem empty_body_is_answered_400 (E : externals) (request : Request)
    (body : ParseAndUploadRequest) (w : list call) (d urls : gmap string pyval)
    (resp : http_response) :
  resolved E body d urls ->
  let sel := chosen_url (quality body) urls in
  client_get E sel default_headers = inr resp ->
  is_success resp = true ->
  content resp = [] ->
  parse_and_upload_to_r2 E request body AUTH_TOKEN w
  = (HTTPException 400 "视频下载失败",
     (w ++ [Crawl (url body); HttpGet sel default_headers])%list).
Proof.
  intros Hres sel Hget Hok Hempty. reach_download Hres.
  fold sel. rewrite Hget, Hok, Hempty, <- app_assoc. reflexivity.
Qed.

Lemma empty_body_is_answered_400_witness :
  let E := with_client_get sample_externals
             (inr {| status_code := 200; content := [] |}) in
  exists d urls,
    resolved E (sample_body "high") d urls
    /\ client_get E (chosen_url "high" urls) default_headers
       = inr {| status_code := 200; content := [] |}
    /\ is_success {| status_code := 200; content := [] |} = true
    /\ content {| status_code := 200; content := [] |} = []
    /\ parse_and_upload_to_r2 E (sample_request (Some AUTH_TOKEN)) (sample_body "high")
         AUTH_TOKEN []
       = (HTTPException 400 "视频下载失败",
          [Crawl (url (sample_body "high"));
           HttpGet (PStr "https://cdn.example/123.mp4") default_headers]).
Proof.
  cbn zeta. eexists. eexists.
  assert (Hres : resolved
                   (with_client_get sample_externals
                      (inr {| status_code := 200; content := [] |}))
                   (sample_body "high")
                   (<["type" := PStr "video"]>
                    (<["video_id" := PStr "123"]>
                     (<["desc" := PStr "a/b"]>
                      (<["video_data" :=
                           PDict (<["nwm_video_url" := PStr "https://cdn.example/123.mp4"]> ∅)]>
                       ∅))))
                   (<["nwm_video_url" := PStr "https://cdn.example/123.mp4"]> ∅))
    by (repeat split; vm_compute; reflexivity).
  split; [exact Hres|]. split; [reflexivity|]. split; [reflexivity|].
  split; [reflexivity|].
  exact (empty_body_is_answered_400 _ (sample_request (Some AUTH_TOKEN))
           (sample_body "high") [] _ _ _ Hres eq_refl eq_refl eq_refl).
Defined.

Lemma dict_get_is_dict (d : gmap string pyval) k :
  is_dict (dict_get d k PNone) = true ->
  dict_get d k (PDict ∅) = dict_get d k PNone.
Proof. unfold dict_get. destruct (d !! k); [reflexivity | discriminate]. Qed.

(** Once the content is downloaded, a run ends with the write failing,
    with the cover lookup failing after the write, or with the
    response. *)
Lemma upload_after_download E request body w d urls resp :
  resolved E body d urls ->
  let sel := chosen_url (quality body) urls in
  let key := object_key_of E (datetime_now E) (dict_get d "video_id" (PStr "unknown")) in
  let w3 := (w ++ [Crawl (url body); HttpGet sel default_headers;
                   PutObject (bucket_name E) key (content resp) "video/mp4"])%list in
  client_get E sel default_headers = inr resp ->
  is_success resp = true ->
  content resp <> [] ->
  parse_and_upload_to_r2 E request body AUTH_TOKEN w
  = match put_object E (bucket_name E) key (content resp) "video/mp4" with
    | Some e => (http_error_of e, w3)
    | None =>
        match get (dict_get d "cover_data" (PDict ∅)) "cover" PNone with
        | inl e => (http_error_of e, w3)
        | inr cover =>
            (Return
               (Build_ResponseModel 200 (url_path request)
                  {| video_info :=
                       {| vi_video_id := dict_get d "video_id" (PStr "unknown");
                          vi_desc := dict_get d "desc" (PStr EmptyString);
                          vi_platform := dict_get d "platform" PNone;
                          vi_type := PStr "video";
                          vi_create_time := dict_get d "create_time" PNone;
                          vi_author :=
                            match dict_get d "author" PNone with
                            | PDict a => dict_get a "nickname" PNone
                            | _ => PNone
                            end;
                          vi_statistics := dict_get d "statistics" PNone;
                          vi_cover := cover |};
                     r2_storage :=
                       {| bucket := dict_get (r2_config E) "bucket_name" PNone;
                          path := key;
                          file_size := Z.of_nat (length (content resp));
                          file_size_mb := size_mb (Z.of_nat (length (content resp))) |};
                     data_quality := quality body |}),
             w3)
        end
    end.
Proof.
  intros Hres sel key w3 Hget Hok Hne. subst w3.
  assert (Htype' : dict_get d "type" PNone = PStr "video").
  { destruct Hres as (_ & Htype & _). unfold dict_get. rewrite Htype. reflexivity. }
  reach_download Hres.
  fold sel. rewrite Hget, Hok.
  destruct (content resp) as [|c cs] eqn:Hcontent; [contradiction|].
  cbn [lift get]. rewrite <- Hcontent.
  unfold upload_to_r2, bind, perform, ret.
  fold key. rewrite <- !app_assoc. cbn [app].
  destruct (put_object E (bucket_name E) key (content resp) "video/mp4") as [e|];
    [reflexivity|].
  rewrite Htype'.
  destruct (is_dict (dict_get d "author" PNone)) eqn:Hauthor.
  - rewrite (dict_get_is_dict d "author" Hauthor).
    destruct (dict_get d "author" PNone) as [| | | | |a]; try discriminate.
    cbn [lift get].
    destruct (get (dict_get d "cover_data" (PDict ∅)) "cover" PNone); reflexivity.
  - destruct (get (dict_get d "cover_data" (PDict ∅)) "cover" PNone) as [e|cover];
      [reflexivity|].
    destruct (dict_get d "author" PNone); try discriminate; reflexivity.
Qed.

(** X8.  When the store refuses the write, the handler answers by the
    class of the store's exception (500 with the prefixed text unless
    it is a [ValueError]) and returns no response; the log shows the
    crawler call, the GET and the attempted write, each once. *)
Theorem failed_write_is_answered_by_class (E : externals) (request : Request)
    (body : ParseAndUploadRequest) (w : list call) (d urls : gmap string pyval)
    (resp : http_response) (e : exc) :
  resolved E body d urls ->
  let sel := chosen_url (quality body) urls in
  let key := object_key_of E (datetime_now E) (dict_get d "video_id" (PStr "unknown")) in
  client_get E sel default_headers = inr resp ->
  is_success resp = true ->
  content resp <> [] ->
  put_object E (bucket_name E) key (content resp) "video/mp4" = Some e ->
  parse_and_upload_to_r2 E request body AUTH_TOKEN w
  = (http_error_of e,
     (w ++ [Crawl (url body); HttpGet sel default_headers;
            PutObject (bucket_name E) key (content resp) "video/mp4"])%list)
  /\ (is_ValueError e = false ->
      http_error_of e = HTTPException 500 ("处理失败: " +:+ exc_str e)).
Proof.
  intros Hres sel key Hget Hok Hne Hput. split.
  - rewrite (upload_after_download E request body w d urls resp Hres Hget Hok Hne).
    fold sel key. rewrite Hput. reflexivity.
  - unfold http_error_of. intros ->. reflexivity.
Qed.

Lemma failed_write_is_answered_by_class_witness :
  let E := with_put_object sample_externals (Some (Exc false "AccessDenied")) in
  resolved E (sample_body "high") sample_record sample_urls
  /\ client_get E (chosen_url "high" sample_urls) default_headers
     = inr {| status_code := 200; content := sample_payload |}
  /\ is_success {| status_code := 200; content := sample_payload |} = true
  /\ content {| status_code := 200; content := sample_payload |} <> []
  /\ put_object E (bucket_name E) "douyin/2026/01/04/123.mp4" sample_payload "video/mp4"
     = Some (Exc false "AccessDenied")
  /\ parse_and_upload_to_r2 E (sample_request (Some AUTH_TOKEN)) (sample_body "high")
       AUTH_TOKEN []
     = (HTTPException 500 "处理失败: AccessDenied",
        [Crawl (url (sample_body "high"));
         HttpGet (PStr "https://cdn.example/123.mp4") default_headers;
         PutObject (PStr "douyin-videos") "douyin/2026/01/04/123.mp4" sample_payload
           "video/mp4"]).
Proof.
  cbn zeta.
  set (E := with_put_object sample_externals (Some (Exc false "AccessDenied"))).
  assert (Hres : resolved E (sample_body "high") sample_record sample_urls)
    by (repeat split; vm_compute; reflexivity).
  assert (Hne : content {| status_code := 200; content := sample_payload |} <> [])
    by discriminate.
  split; [exact Hres|]. split; [reflexivity|]. split; [reflexivity|].
  split; [exact Hne|]. split; [reflexivity|].
  exact (proj1 (failed_write_is_answered_by_class E (sample_request (Some AUTH_TOKEN))
                  (sample_body "high") [] sample_record sample_urls _ _
                  Hres eq_refl eq_refl Hne eq_refl)).
Defined.

(** X9.  The cover lookup has no guard: when the [cover_data] of the
    record is there but is not a dict, the handler answers 500 with
    the text of the [AttributeError] although the store has accepted
    the write of the run. *)
Theorem bad_cover_data_fails_after_the_write (E : externals) (request : Request)
    (body : ParseAndUploadRequest) (w : list call) (d urls : gmap string pyval)
    (resp : http_response) (v : pyval) :
  resolved E body d urls ->
  let sel := chosen_url (quality body) urls in
  let key := object_key_of E (datetime_now E) (dict_get d "video_id" (PStr "unknown")) in
  client_get E sel default_headers = inr resp ->
  is_success resp = true ->
  content resp <> [] ->
  put_object E (bucket_name E) key (content resp) "video/mp4" = None ->
  d !! "cover_data" = Some v ->
  is_dict v = false ->
  parse_and_upload_to_r2 E request body AUTH_TOKEN w
  = (HTTPException 500
       ("处理失败: " +:+ "'" +:+ type_name v +:+ "' object has no attribute 'get'"),
     (w ++ [Crawl (url body); HttpGet sel default_headers;
            PutObject (bucket_name E) key (content resp) "video/mp4"])%list).
Proof.
  intros Hres sel key Hget Hok Hne Hput Hcover Hv.
  rewrite (upload_after_download E request body w d urls resp Hres Hget Hok Hne).
  fold sel key. rewrite Hput.
  unfold dict_get at 1. rewrite Hcover.
  destruct v; try discriminate; reflexivity.
Qed.

Lemma bad_cover_data_fails_after_the_write_witness :
  let E := with_crawler sample_externals (inr (PDict coverless_record)) in
  resolved E (sample_body "high") coverless_record sample_urls
  /\ client_get E (chosen_url "high" sample_urls) default_headers
     = inr {| status_code := 200; content := sample_payload |}
  /\ is_success {| status_code := 200; content := sample_payload |} = true
  /\ content {| status_code := 200; content := sample_payload |} <> []
  /\ put_object E (bucket_name E) "douyin/2026/01/04/123.mp4" sample_payload "video/mp4"
     = None
  /\ coverless_record !! "cover_data" = Some PNone
  /\ is_dict PNone = false
  /\ parse_and_upload_to_r2 E (sample_request (Some AUTH_TOKEN)) (sample_body "high")
       AUTH_TOKEN []
     = (HTTPException 500 "处理失败: 'NoneType' object has no attribute 'get'",
        [Crawl (url (sample_body "high"));
         HttpGet (PStr "https://cdn.example/123.mp4") default_headers;
         PutObject (PStr "douyin-videos") "douyin/2026/01/04/123.mp4" sample_payload
           "video/mp4"]).
Proof.
  cbn zeta.
  set (E := with_crawler sample_externals (inr (PDict coverless_record))).
  assert (Hres : resolved E (sample_body "high") coverless_record sample_urls)
    by (repeat split; vm_compute; reflexivity).
  assert (Hne : content {| status_code := 200; content := sample_payload |} <> [])
    by discriminate.
  assert (Hcover : coverless_record !! "cover_data" = Some PNone)
    by (vm_compute; reflexivity).
  split; [exact Hres|]. split; [reflexivity|]. split; [reflexivity|].
  split; [exact Hne|]. split; [reflexivity|]. split; [exact Hcover|].
  split; [reflexivity|].
  exact (bad_cover_data_fails_after_the_write E (sample_request (Some AUTH_TOKEN))
           (sample_body "high") [] coverless_record sample_urls _ PNone
           Hres eq_refl eq_refl Hne eq_refl Hcover eq_refl).
Defined.

(** X10.  A run whose every stage answers returns: when the record
    resolves, the GET answers 2xx with a non-empty body, the store
    accepts the write and [cover_data] is a dict or absent, the handler
    returns 200 with the fields of the record (the id defaulting to
    "unknown", the description to the empty string), the nickname of
    the author when the author is a dict and [None] otherwise, the
    cover, the storage report and the quality asked. *)
Theorem upload_returns_the_report (E : externals) (request : Request)
    (body : ParseAndUploadRequest) (w : list call) (d urls cover : gmap string pyval)
    (resp : http_response) :
  resolved E body d urls ->
  let sel := chosen_url (quality body) urls in
  let key := object_key_of E (datetime_now E) (dict_get d "video_id" (PStr "unknown")) in
  client_get E sel default_headers = inr resp ->
  is_success resp = true ->
  content resp <> [] ->
  put_object E (bucket_name E) key (content resp) "video/mp4" = None ->
  dict_get d "cover_data" (PDict ∅) = PDict cover ->
  parse_and_upload_to_r2 E request body AUTH_TOKEN w
  = (Return
       (Build_ResponseModel 200 (url_path request)
          {| video_info :=
               {| vi_video_id := dict_get d "video_id" (PStr "unknown");
                  vi_desc := dict_get d "desc" (PStr EmptyString);
                  vi_platform := dict_get d "platform" PNone;
                  vi_type := PStr "video";
                  vi_create_time := dict_get d "create_time" PNone;
                  vi_author :=
                    match dict_get d "author" PNone with
                    | PDict a => dict_get a "nickname" PNone
                    | _ => PNone
                    end;
                  vi_statistics := dict_get d "statistics" PNone;
                  vi_cover := dict_get cover "cover" PNone |};
             r2_storage :=
               {| bucket := dict_get (r2_config E) "bucket_name" PNone;
                  path := key;
                  file_size := Z.of_nat (length (content resp));
                  file_size_mb := size_mb (Z.of_nat (length (content resp))) |};
             data_quality := quality body |}),
     (w ++ [Crawl (url body); HttpGet sel default_headers;
            PutObject (bucket_name E) key (content resp) "video/mp4"])%list).
Proof.
  intros Hres sel key Hget Hok Hne Hput Hcover.
  rewrite (upload_after_download E request body w d urls resp Hres Hget Hok Hne).
  fold sel key. rewrite Hput, Hcover. reflexivity.
Qed.

Lemma upload_returns_the_report_witness :
  let E := with_crawler sample_externals (inr (PDict anonymous_record)) in
  let run := parse_and_upload_to_r2 E (sample_request (Some AUTH_TOKEN))
               (sample_body "high") AUTH_TOKEN [] in
  exists cover r w',
    resolved E (sample_body "high") anonymous_record sample_urls
    /\ client_get E (chosen_url "high" sample_urls) default_headers
       = inr {| status_code := 200; content := sample_payload |}
    /\ is_success {| status_code := 200; content := sample_payload |} = true
    /\ content {| status_code := 200; content := sample_payload |} <> []
    /\ put_object E (bucket_name E) "douyin/2026/01/04/unknown.mp4" sample_payload
         "video/mp4" = None
    /\ dict_get anonymous_record "cover_data" (PDict ∅) = PDict cover
    /\ run = (Return r, w')
    /\ vi_author (video_info (data r)) = PStr "mimi"
    /\ vi_video_id (video_info (data r)) = PStr "unknown"
    /\ path (r2_storage (data r)) = "douyin/2026/01/04/unknown.mp4".
Proof.
  cbn zeta.
  set (E := with_crawler sample_externals (inr (PDict anonymous_record))).
  assert (Hres : resolved E (sample_body "high") anonymous_record sample_urls)
    by (repeat split; vm_compute; reflexivity).
  assert (Hne : content {| status_code := 200; content := sample_payload |} <> [])
    by discriminate.
  eexists. eexists. eexists.
  split; [exact Hres|]. split; [reflexivity|]. split; [reflexivity|].
  split; [exact Hne|]. split; [reflexivity|]. split; [vm_compute; reflexivity|].
  split; [exact (upload_returns_the_report E (sample_request (Some AUTH_TOKEN))
                   (sample_body "high") [] anonymous_record sample_urls _ _
                   Hres eq_refl eq_refl Hne eq_refl eq_refl)|].
  split; [vm_compute; reflexivity|]. split; vm_compute; reflexivity.
Defined.

(** ** More on the object key *)

(** X11.  A record without a [video_id] is stored as "unknown": every
    such video of a day is written under the one key
    douyin/yyyy/mm/dd/unknown.mp4, and the response reports "unknown"
    as its id. *)
Theorem missing_video_id_is_stored_as_unknown (E : externals) (request : Request)
    (body : ParseAndUploadRequest) (auth : string) (w w' : list call)
    (r : ResponseModel upload_data) (d : gmap string pyval) :
  parse_and_upload_to_r2 E request body auth w = (Return r, w') ->
  hybrid_parsing_single_video E (url body) = inr (PDict d) ->
  d !! "video_id" = None ->
  let key := "douyin/" +:+ strftime_Ymd (datetime_now E) +:+ "/unknown.mp4" in
  path (r2_storage (data r)) = key
  /\ vi_video_id (video_info (data r)) = PStr "unknown"
  /\ exists sel content,
       w' = (w ++ [Crawl (url body); HttpGet sel default_headers;
                   PutObject (bucket_name E) key content "video/mp4"])%list.
Proof.
  intros Hrun Hcrawl Hid. cbn zeta.
  apply parse_and_upload_to_r2_returns in Hrun as [_ Htry].
  apply parse_and_upload_try_success in Htry
    as (d' & urls & resp & Hcrawl' & _ & _ & _ & _ & _ & _ & Hw & _ & _ & Hvid & _ & Hst & _).
  rewrite Hcrawl in Hcrawl'. injection Hcrawl' as <-.
  unfold dict_get in Hw, Hst, Hvid. rewrite Hid in Hw, Hst, Hvid.
  split; [rewrite Hst; reflexivity|]. split; [exact Hvid|].
  eexists. eexists. exact Hw.
Qed.

Lemma missing_video_id_is_stored_as_unknown_witness :
  let E := with_crawler sample_externals (inr (PDict anonymous_record)) in
  exists r w',
    parse_and_upload_to_r2 E (sample_request (Some AUTH_TOKEN)) (sample_body "high")
      AUTH_TOKEN [] = (Return r, w')
    /\ hybrid_parsing_single_video E (url (sample_body "high"))
       = inr (PDict anonymous_record)
    /\ anonymous_record !! "video_id" = None
    /\ path (r2_storage (data r)) = "douyin/2026/01/04/unknown.mp4".
Proof.
  cbn zeta.
  set (E := with_crawler sample_externals (inr (PDict anonymous_record))).
  eexists. eexists.
  assert (Hid : anonymous_record !! "video_id" = None) by (vm_compute; reflexivity).
  split; [vm_compute; reflexivity|]. split; [reflexivity|]. split; [exact Hid|].
  refine (proj1 (missing_video_id_is_stored_as_unknown E
                   (sample_request (Some AUTH_TOKEN)) (sample_body "high")
                   AUTH_TOKEN [] _ _ anonymous_record _ eq_refl Hid));
    vm_compute; reflexivity.
Defined.

(** X12.  The quality is no part of the key: two runs that return on
    the same day for records with the same string id report the same
    path and write the same key, whatever the quality each asks. *)
Theorem object_key_ignores_quality (E1 E2 : externals) (request1 request2 : Request)
    (body1 body2 : ParseAndUploadRequest) (auth1 auth2 : string)
    (w1 w1' w2 w2' : list call) (r1 r2 : ResponseModel upload_data)
    (d1 d2 : gmap string pyval) (video_id : string) :
  parse_and_upload_to_r2 E1 request1 body1 auth1 w1 = (Return r1, w1') ->
  parse_and_upload_to_r2 E2 request2 body2 auth2 w2 = (Return r2, w2') ->
  hybrid_parsing_single_video E1 (url body1) = inr (PDict d1) ->
  hybrid_parsing_single_video E2 (url body2) = inr (PDict d2) ->
  d1 !! "video_id" = Some (PStr video_id) ->
  d2 !! "video_id" = Some (PStr video_id) ->
  year (datetime_now E1) = year (datetime_now E2) ->
  month (datetime_now E1) = month (datetime_now E2) ->
  day (datetime_now E1) = day (datetime_now E2) ->
  path (r2_storage (data r1)) = path (r2_storage (data r2))
  /\ exists key content1 content2,
       last w1' = Some (PutObject (bucket_name E1) key content1 "video/mp4")
       /\ last w2' = Some (PutObject (bucket_name E2) key content2 "video/mp4").
Proof.
  intros Hrun1 Hrun2 Hc1 Hc2 Hid1 Hid2 Hy Hm Hd.
  apply parse_and_upload_to_r2_returns in Hrun1 as [_ Htry1].
  apply parse_and_upload_to_r2_returns in Hrun2 as [_ Htry2].
  apply parse_and_upload_try_success in Htry1
    as (d1' & urls1 & resp1 & Hcrawl1 & _ & _ & _ & _ & _ & _ & Hw1 & _ & _ & _ & _ & Hst1 & _).
  apply parse_and_upload_try_success in Htry2
    as (d2' & urls2 & resp2 & Hcrawl2 & _ & _ & _ & _ & _ & _ & Hw2 & _ & _ & _ & _ & Hst2 & _).
  rewrite Hc1 in Hcrawl1. injection Hcrawl1 as <-.
  rewrite Hc2 in Hcrawl2. injection Hcrawl2 as <-.
  unfold dict_get in Hw1, Hw2, Hst1, Hst2.
  rewrite Hid1 in Hw1, Hst1. rewrite Hid2 in Hw2, Hst2.
  assert (Hkey : object_key_of E1 (datetime_now E1) (PStr video_id)
                 = object_key_of E2 (datetime_now E2) (PStr video_id)).
  { unfold object_key_of, strftime_Ymd. cbn [str]. rewrite Hy, Hm, Hd. reflexivity. }
  split; [rewrite Hst1, Hst2; cbn [path]; exact Hkey|].
  rewrite Hkey in Hw1.
  eexists. eexists. eexists.
  rewrite Hw1, Hw2.
  split;
    match goal with
    | |- last (?l ++ [?a; ?b; ?c])%list = _ =>
        change (l ++ [a; b; c])%list with (l ++ [a; b] ++ [c])%list;
        rewrite !app_assoc; rewrite last_snoc; reflexivity
    end.
Qed.

Lemma object_key_ignores_quality_witness :
  let E1 := stub_externals (PDict watermarked_record) sample_payload jan_4_2026 in
  let E2 := stub_externals (PDict watermarked_record) sample_payload jan_4_2026_evening in
  let request := sample_request (Some AUTH_TOKEN) in
  exists r1 w1' r2 w2',
    parse_and_upload_to_r2 E1 request (sample_body "high") AUTH_TOKEN [] = (Return r1, w1')
    /\ parse_and_upload_to_r2 E2 request (sample_body "watermark") AUTH_TOKEN []
       = (Return r2, w2')
    /\ hybrid_parsing_single_video E1 (url (sample_body "high"))
       = inr (PDict watermarked_record)
    /\ hybrid_parsing_single_video E2 (url (sample_body "watermark"))
       = inr (PDict watermarked_record)
    /\ watermarked_record !! "video_id" = Some (PStr "123")
    /\ year (datetime_now E1) = year (datetime_now E2)
    /\ month (datetime_now E1) = month (datetime_now E2)
    /\ day (datetime_now E1) = day (datetime_now E2)
    /\ path (r2_storage (data r1)) = "douyin/2026/01/04/123.mp4"
    /\ path (r2_storage (data r1)) = path (r2_storage (data r2)).
Proof.
  cbn zeta.
  set (E1 := stub_externals (PDict watermarked_record) sample_payload jan_4_2026).
  set (E2 := stub_externals (PDict watermarked_record) sample_payload jan_4_2026_evening).
  assert (Hid : watermarked_record !! "video_id" = Some (PStr "123"))
    by (vm_compute; reflexivity).
  eexists. eexists. eexists. eexists.
  split; [vm_compute; reflexivity|].
  split; [vm_compute; reflexivity|].
  split; [reflexivity|]. split; [reflexivity|]. split; [exact Hid|].
  split; [reflexivity|]. split; [reflexivity|]. split; [reflexivity|].
  split; [reflexivity|].
  refine (proj1 (object_key_ignores_quality E1 E2 (sample_request (Some AUTH_TOKEN))
                   (sample_request (Some AUTH_TOKEN)) (sample_body "high")
                   (sample_body "watermark") AUTH_TOKEN AUTH_TOKEN [] _ [] _ _ _
                   watermarked_record watermarked_record "123"
                   _ _ eq_refl eq_refl Hid Hid eq_refl eq_refl eq_refl));
    vm_compute; reflexivity.
Defined.

(** X13.  The bucket written to and the bucket reported are read with
    different defaults: when the configuration names no bucket, a run
    that returns has written to "douyin-videos" and reports [None];
    when it names one, both are that bucket. *)
Theorem reported_bucket_has_no_default (E : externals) (request : Request)
    (body : ParseAndUploadRequest) (auth : string) (w w' : list call)
    (r : ResponseModel upload_data) :
  parse_and_upload_to_r2 E request body auth w = (Return r, w') ->
  exists sel key content written,
    w' = (w ++ [Crawl (url body); HttpGet sel default_headers;
                PutObject written key content "video/mp4"])%list
    /\ match r2_config E !! "bucket_name" with
       | Some b => written = b /\ bucket (r2_storage (data r)) = b
       | None =>
           written = PStr "douyin-videos" /\ bucket (r2_storage (data r)) = PNone
       end.
Proof.
  intros Hrun.
  apply parse_and_upload_to_r2_returns in Hrun as [_ Htry].
  apply parse_and_upload_try_success in Htry
    as (d & urls & resp & _ & _ & _ & _ & _ & _ & _ & Hw & _ & _ & _ & _ & Hst & _).
  eexists. eexists. eexists. eexists. split; [exact Hw|].
  rewrite Hst. unfold bucket_name, dict_get. cbn [bucket].
  destruct (r2_config E !! "bucket_name"); split; reflexivity.
Qed.

Lemma reported_bucket_has_no_default_witness :
  let E := with_r2_config sample_externals ∅ in
  exists r w',
    parse_and_upload_to_r2 E (sample_request (Some AUTH_TOKEN)) (sample_body "high")
      AUTH_TOKEN [] = (Return r, w')
    /\ bucket (r2_storage (data r)) = PNone
    /\ last w' = Some (PutObject (PStr "douyin-videos") "douyin/2026/01/04/123.mp4"
                         sample_payload "video/mp4")
    /\ exists sel key content written,
         w' = ([] ++ [Crawl (url (sample_body "high")); HttpGet sel default_headers;
                      PutObject written key content "video/mp4"])%list
         /\ match r2_config E !! "bucket_name" with
            | Some b => written = b /\ bucket (r2_storage (data r)) = b
            | None =>
                written = PStr "douyin-videos" /\ bucket (r2_storage (data r)) = PNone
            end.
Proof.
  cbn zeta. eexists. eexists.
  split; [vm_compute; reflexivity|]. split; [reflexivity|]. split; [reflexivity|].
  eapply (reported_bucket_has_no_default (with_r2_config sample_externals ∅)
            (sample_request (Some AUTH_TOKEN)) (sample_body "high") AUTH_TOKEN []).
  vm_compute. reflexivity.
Defined.

Lemma string_length_append (a b : string) :
  String.length (a +:+ b) = (String.length a + String.length b)%nat.
Proof.
  induction a as [|c a IH]; [reflexivity|].
  change (S (String.length (a +:+ b)) = S (String.length a + String.length b)).
  rewrite IH. reflexivity.
Qed.

Lemma append_inj_suffix (a b t : string) : a +:+ t = b +:+ t -> a = b.
Proof.
  revert b. induction a as [|c a IH]; intros [|c' b] H.
  - reflexivity.
  - apply (f_equal String.length) in H.
    change (String.length t = S (String.length (b +:+ t))) in H.
    rewrite string_length_append in H. lia.
  - apply (f_equal String.length) in H.
    change (S (String.length (a +:+ t)) = String.length t) in H.
    rewrite string_length_append in H. lia.
  - change (String c (a +:+ t) = String c' (b +:+ t)) in H.
    injection H as -> H. f_equal. apply IH. exact H.
Qed.

Lemma digit_inj (a b : Z) : 0 <= a <= 9 -> 0 <= b <= 9 -> digit a = digit b -> a = b.
Proof.
  intros Ha Hb H. unfold digit in H.
  apply (f_equal nat_of_ascii) in H.
  rewrite !nat_ascii_embedding in H by lia. lia.
Qed.

Lemma two_digits_inj (a b : Z) :
  0 <= a <= 99 -> 0 <= b <= 99 -> two_digits a = two_digits b -> a = b.
Proof.
  intros Ha Hb H. unfold two_digits in H. injection H as H1 H0.
  assert (Hd : forall n, 0 <= n <= 99 ->
                 0 <= n / 10 <= 9 /\ 0 <= n mod 10 <= 9
                 /\ n = 10 * (n / 10) + n mod 10).
  { intros n Hn. Z.div_mod_to_equations. lia. }
  destruct (Hd a Ha) as (A1 & A0 & Ea).
  destruct (Hd b Hb) as (B1 & B0 & Eb).
  apply digit_inj in H1, H0; try assumption.
  rewrite Ea, Eb, H1, H0. reflexivity.
Qed.

Lemma four_digits_inj (a b : Z) :
  0 <= a <= 9999 -> 0 <= b <= 9999 -> four_digits a = four_digits b -> a = b.
Proof.
  intros Ha Hb H. unfold four_digits in H. injection H as H3 H2 H1 H0.
  assert (Hd : forall n, 0 <= n <= 9999 ->
                 0 <= n / 1000 <= 9 /\ 0 <= n / 100 mod 10 <= 9
                 /\ 0 <= n / 10 mod 10 <= 9 /\ 0 <= n mod 10 <= 9
                 /\ n = 1000 * (n / 1000) + 100 * (n / 100 mod 10)
                        + 10 * (n / 10 mod 10) + n mod 10).
  { intros n Hn. Z.div_mod_to_equations. lia. }
  destruct (Hd a Ha) as (A3 & A2 & A1 & A0 & Ea).
  destruct (Hd b Hb) as (B3 & B2 & B1 & B0 & Eb).
  apply digit_inj in H3, H2, H1, H0; try assumption.
  rewrite Ea, Eb, H3, H2, H1, H0. reflexivity.
Qed.

(** X14.  On the calendar the key is injective: two videos with string
    ids are written under the same key only if they have the same id
    and are uploaded on the same day. *)
Theorem object_key_is_injective (E : externals) (now1 now2 : datetime)
    (video_id1 video_id2 : string) :
  calendar_date now1 ->
  calendar_date now2 ->
  object_key_of E now1 (PStr video_id1) = object_key_of E now2 (PStr video_id2) ->
  video_id1 = video_id2
  /\ year now1 = year now2 /\ month now1 = month now2 /\ day now1 = day now2.
Proof.
  intros H1 H2 Hkey.
  rewrite (object_key_of_digits E now1 video_id1 H1) in Hkey.
  rewrite (object_key_of_digits E now2 video_id2 H2) in Hkey.
  destruct H1 as (Hy1 & Hm1 & Hd1). destruct H2 as (Hy2 & Hm2 & Hd2).
  unfold four_digits, two_digits in Hkey.
  cbn [String.append] in Hkey.
  injection Hkey as Y3 Y2 Y1 Y0 M1 M0 D1 D0 Hid.
  split; [apply (append_inj_suffix _ _ ".mp4"); exact Hid|].
  split; [|split].
  - apply four_digits_inj; [lia | lia |]. unfold four_digits. congruence.
  - apply two_digits_inj; [lia | lia |]. unfold two_digits. congruence.
  - apply two_digits_inj; [lia | lia |]. unfold two_digits. congruence.
Qed.

Lemma object_key_is_injective_witness :
  calendar_date jan_4_2026
  /\ calendar_date jan_4_2026
  /\ object_key_of sample_externals jan_4_2026 (PStr "123")
     = object_key_of sample_externals jan_4_2026 (PStr "123")
  /\ "123" = "123".
Proof.
  assert (H : calendar_date jan_4_2026) by (unfold calendar_date; cbn; lia).
  split; [exact H|]. split; [exact H|]. split; [reflexivity|].
  exact (proj1 (object_key_is_injective sample_externals jan_4_2026 jan_4_2026
                  "123" "123" H H eq_refl)).
Defined.

(** ** Listing and presigning *)

(** X15.  The listing handler neither caps nor filters: whatever
    [max_keys] is, it returns one entry per object the store lists, in
    the store's order, and [count] is their number, zero when the
    answer has no [Contents]; and whatever the store raises, a
    [ValueError] included, it answers 500 with the prefixed text. *)
Theorem list_videos_mirrors_the_store (E : externals) (request : Request)
    (prefix : string) (max_keys : Z) (w : list call) :
  let run := list_r2_videos E request prefix max_keys w in
  snd run = (w ++ [ListObjectsV2 (bucket_name E) prefix max_keys])%list
  /\ match list_objects_v2 E (bucket_name E) prefix max_keys with
     | inr response =>
         exists r,
           fst run = Return r
           /\ code r = 200
           /\ count (data r) = Z.of_nat (length (listed response))
           /\ map entry_key (videos (data r)) = map obj_Key (listed response)
           /\ (Contents response = None -> count (data r) = 0 /\ videos (data r) = [])
     | inl e => fst run = HTTPException 500 ("获取列表失败: " +:+ exc_str e)
     end.
Proof.
  cbn zeta. unfold list_r2_videos, list_r2_videos_try, bind, perform, ret.
  destruct (list_objects_v2 E (bucket_name E) prefix max_keys) as [e|response];
    cbn [fst snd]; split; try reflexivity.
  eexists. split; [reflexivity|]. cbn [code data count videos].
  fold (listed response).
  split; [reflexivity|]. split; [rewrite length_map; reflexivity|].
  split.
  - rewrite map_map. reflexivity.
  - unfold listed. intros ->. split; reflexivity.
Qed.

(** X16.  The presign handler passes the path and the expiry on
    unchanged, without checking either: it returns 200 with the URL
    the store signed and echoes both, or answers 500 with the prefixed
    text of whatever the store raised; signing is the only call. *)
Theorem get_download_url_echoes_the_request (E : externals) (request : Request)
    (path : string) (expires_in : Z) (w : list call) :
  let run := get_video_download_url E request path expires_in w in
  snd run = (w ++ [GeneratePresignedUrl (bucket_name E) path expires_in])%list
  /\ match s3_generate_presigned_url E (bucket_name E) path expires_in with
     | inr signed =>
         fst run
         = Return (Build_ResponseModel 200 (url_path request)
                     {| url_path_of := path;
                        download_url := signed;
                        url_expires_in := expires_in |})
     | inl e => fst run = HTTPException 500 ("生成链接失败: " +:+ exc_str e)
     end.
Proof.
  cbn zeta.
  unfold get_video_download_url, get_video_download_url_try, generate_presigned_url,
    bind, perform, ret.
  destruct (s3_generate_presigned_url E (bucket_name E) path expires_in);
    split; reflexivity.
Qed.

(** ** More on sizes *)

Lemma round_half_even_Qeq (x y : Q) :
  (x == y)%Q -> round_half_even x = round_half_even y.
Proof.
  intros H. unfold round_half_even.
  rewrite (Qfloor_comp x y H).
  assert (Hc : Qcompare (x - inject_Z (Qfloor y))%Q (1 # 2)
               = Qcompare (y - inject_Z (Qfloor y))%Q (1 # 2)).
  { apply Qcompare_comp; [rewrite H; reflexivity | reflexivity]. }
  rewrite Hc. reflexivity.
Qed.

Lemma round_half_even_le (x y : Q) :
  (x <= y)%Q -> round_half_even x <= round_half_even y.
Proof.
  intros Hxy.
  destruct (Z_le_gt_dec (round_half_even x) (round_half_even y)) as [Hle|Hgt];
    [exact Hle|].
  pose proof (round_half_even_close x) as Hx.
  pose proof (round_half_even_close y) as Hy.
  apply Qabs_Qle_condition in Hx, Hy.
  assert (Hstep : (inject_Z (round_half_even y) + 1 <= inject_Z (round_half_even x))%Q).
  { change 1%Q with (inject_Z 1). rewrite <- inject_Z_plus.
    rewrite <- Zle_Qle. lia. }
  assert (Heq : (x == y)%Q) by (apply Qle_antisym; lra).
  rewrite (round_half_even_Qeq x y Heq) in Hgt. lia.
Qed.

Lemma size_mb_le (n m : Z) : n <= m -> (size_mb n <= size_mb m)%Q.
Proof.
  intros H. unfold size_mb, round2, Qle. cbn [Qnum Qden].
  apply Z.mul_le_mono_nonneg_r; [lia|].
  apply round_half_even_le.
  assert (Hq : (inject_Z n <= inject_Z m)%Q) by (rewrite <- Zle_Qle; exact H).
  unfold Qdiv. change (/ inject_Z 1024)%Q with (1 # 1024)%Q.
  change (inject_Z 100) with 100%Q.
  lra.
Qed.

(** X17.  The size in megabytes grows with the size in bytes, and it
    is 0.00 for every content of at most 5242 bytes. *)
Theorem size_mb_is_monotone (n m : Z) :
  (n <= m -> (size_mb n <= size_mb m)%Q)
  /\ (0 <= n <= 5242 -> size_mb n = 0 # 100).
Proof.
  split; [apply size_mb_le|].
  intros [Hlo Hhi].
  pose proof (size_mb_le 0 n Hlo) as H0.
  pose proof (size_mb_le n 5242 Hhi) as H1.
  unfold size_mb, round2 in *.
  set (k := round_half_even (inject_Z n / inject_Z 1024 / inject_Z 1024 * inject_Z 100))
    in *.
  assert (Ha : round_half_even
                 (inject_Z 0 / inject_Z 1024 / inject_Z 1024 * inject_Z 100) = 0)
    by (vm_compute; reflexivity).
  assert (Hb : round_half_even
                 (inject_Z 5242 / inject_Z 1024 / inject_Z 1024 * inject_Z 100) = 0)
    by (vm_compute; reflexivity).
  rewrite Ha in H0. rewrite Hb in H1.
  unfold Qle in H0, H1. cbn [Qnum Qden] in H0, H1.
  assert (k = 0) by lia. congruence.
Qed.

Lemma size_mb_is_monotone_witness :
  3 <= 5243
  /\ 0 <= 3 <= 5242
  /\ (size_mb 3 <= size_mb 5243)%Q
  /\ size_mb 3 = 0 # 100
  /\ size_mb 5243 = 1 # 100.
Proof.
  assert (H1 : 3 <= 5243) by lia.
  assert (H2 : 0 <= 3 <= 5242) by lia.
  split; [exact H1|]. split; [exact H2|].
  split; [exact (proj1 (size_mb_is_monotone 3 5243) H1)|].
  split; [exact (proj2 (size_mb_is_monotone 3 5243) H2)|].
  vm_compute. reflexivity.
Defined.

(** ** More on the choice of the URL *)

(** X18.  There is no fallback across the watermark: for "high" and
    "low" the URL chosen is one of the two no-watermark candidates, for
    any other quality one of the two watermark candidates; and when
    exactly one of the no-watermark URLs is there, "high" and "low"
    choose the same one. *)
Theorem no_fallback_across_the_watermark (quality : string)
    (urls : gmap string pyval) (w : list call) :
  let nwm_hq := dict_get urls "nwm_video_url_HQ" PNone in
  let nwm := dict_get urls "nwm_video_url" PNone in
  let wm_hq := dict_get urls "wm_video_url_HQ" PNone in
  let wm := dict_get urls "wm_video_url" PNone in
  exists u,
    select_download_url quality (PDict urls) w = (inr u, w)
    /\ (quality = "high" \/ quality = "low" -> u = nwm_hq \/ u = nwm)
    /\ (quality <> "high" -> quality <> "low" -> u = wm_hq \/ u = wm)
    /\ (truthy nwm_hq = negb (truthy nwm) ->
        select_download_url "high" (PDict urls) w
        = select_download_url "low" (PDict urls) w).
Proof.
  cbn zeta. exists (chosen_url quality urls).
  split; [apply select_download_url_chosen|].
  split; [|split].
  - intros [-> | ->]; unfold chosen_url, or_; cbn [String.eqb Ascii.eqb Bool.eqb];
      match goal with |- context [truthy ?a] => destruct (truthy a) end; auto.
  - intros Hh Hl. apply String.eqb_neq in Hh, Hl.
    unfold chosen_url, or_. rewrite Hh, Hl.
    match goal with |- context [truthy ?a] => destruct (truthy a) end; auto.
  - intros H. rewrite !select_download_url_chosen. unfold chosen_url, or_.
    cbn [String.eqb Ascii.eqb Bool.eqb]. rewrite H.
    destruct (truthy (dict_get urls "nwm_video_url" PNone)); reflexivity.
Qed.

Lemma no_fallback_across_the_watermark_witness :
  let urls : gmap string pyval :=
    <["wm_video_url" := PStr "https://cdn.example/wm.mp4"]> ∅ in
  ("high" = "high" \/ "high" = "low")
  /\ truthy (chosen_url "high" urls) = false
  /\ exists u,
       select_download_url "high" (PDict urls) [] = (inr u, [])
       /\ (u = dict_get urls "nwm_video_url_HQ" PNone
           \/ u = dict_get urls "nwm_video_url" PNone).
Proof.
  cbn zeta.
  assert (H : "high" = "high" \/ "high" = "low") by (left; reflexivity).
  split; [exact H|]. split; [vm_compute; reflexivity|].
  destruct (no_fallback_across_the_watermark "high"
              (<["wm_video_url" := PStr "https://cdn.example/wm.mp4"]> ∅) [])
    as (u & Hu & Hnwm & _).
  exists u. split; [exact Hu | exact (Hnwm H)].
Defined.

(** ** The unused dependency and the download helper *)

(** X19.  [verify_auth] and the check inlined in the handler accept the
    same credential: for a header that is there, one raises its 401
    exactly when the other does, with the same detail, and
    [verify_auth] returns the header exactly when it is the shared
    secret.  They differ on a missing header only: [verify_auth] turns
    it into the same 401. *)
Theorem verify_auth_agrees_with_the_handler (E : externals) (request : Request)
    (body : ParseAndUploadRequest) (auth : string) (w : list call) :
  let detail := "未认证：无效的 Auth Token" in
  (verify_auth (Some auth) = inr auth <-> auth = AUTH_TOKEN)
  /\ (verify_auth (Some auth) = inl (401, detail)
      <-> fst (parse_and_upload_to_r2 E request body auth w) = HTTPException 401 detail)
  /\ verify_auth None = inl (401, detail).
Proof.
  cbn zeta. unfold verify_auth, parse_and_upload_to_r2.
  destruct (String.eqb_spec auth AUTH_TOKEN) as [->|Hne]; cbn [negb].
  - split; [split; reflexivity|]. split; [|reflexivity].
    split; [discriminate|].
    destruct (parse_and_upload_try E request body w) as [[e|r] w'];
      [destruct (is_ValueError e)|]; discriminate.
  - split; [split; [discriminate | contradiction]|].
    split; [split; reflexivity | reflexivity].
Qed.

(** X20.  [download_video] sends one GET, with the default headers
    overridden by the caller's: a header the caller names carries the
    caller's value, any other header is the default one, so without
    caller headers the User-Agent and the Referer are the fixed ones. *)
Theorem download_video_merges_headers (E : externals) (url : pyval)
    (headers : option (gmap string string)) (w : list call) :
  exists sent,
    snd (download_video E url headers w) = (w ++ [HttpGet url sent])%list
    /\ (forall k,
          sent !! k
          = match headers with
            | Some h =>
                match h !! k with
                | Some v => Some v
                | None => default_headers !! k
                end
            | None => default_headers !! k
            end)
    /\ default_headers !! "Referer" = Some "https://www.douyin.com/"
    /\ dom default_headers = {[ "User-Agent"; "Referer" ]}.
Proof.
  unfold download_video, bind, perform, ret, raise.
  eexists. split; [|split; [|split]].
  - destruct (client_get E url _) as [e|resp]; [reflexivity|].
    destruct (is_success resp); reflexivity.
  - intros k. destruct headers as [h|]; [|reflexivity].
    rewrite lookup_union. destruct (h !! k), (default_headers !! k); reflexivity.
  - vm_compute. reflexivity.
  - unfold default_headers. rewrite !dom_insert_L, dom_empty_L. set_solver.
Qed.
